(** * Opus JNI bridge: shallow embedding and verified properties

    The development embeds the two translation units of the bridge,

    - [opus_jni.cpp]      (module [OpusJni], the working variant), and
    - [opus_jni_stub.cpp] (module [OpusJniStub], the interface-shape variant),

    as state-passing functions over a [World] made of the codec library's
    state, the managed runtime's arrays, the outstanding array leases and a
    chronological trace of every call that leaves the bridge.

    Conventions.
    - [jint], [jsize], [jlong] and native addresses are integers ([Z]).  On
      the 64-bit ABI the casts between [jlong] and a pointer keep the bit
      pattern, so a handle and the address it carries are the same [Z] and
      the null pointer is [0].  The bridge does no arithmetic on them.
    - A Java array reference ([jshortArray], [jbyteArray]) is an
      [option ref]: [None] is the null reference.
    - The codec library (libopus) is an external collaborator: the bridge
      is parametric in it through the class [OpusLib].
    - JNI calls are taken to succeed: [Get<Type>ArrayElements] and
      [NewStringUTF] do not run out of memory, and one call runs at a
      time, so nothing else writes the arrays while they are leased. *)

From stdpp Require Import base numbers option list strings gmap.

Local Open Scope Z_scope.

(** ** The world a call runs in *)

(** A live array object of the managed heap. *)
Definition ref := positive.

(** A possibly null array reference ([jshortArray], [jbyteArray]). *)
Definition jarray := option ref.

(** Release modes of [Release<Type>ArrayElements] (jni.h). *)
Definition JNI_COMMIT : Z := 1.
Definition JNI_ABORT : Z := 2.

(** Requests of [opus_encoder_ctl]; the bridge issues these nine, each
    with its argument. *)
Inductive CtlRequest : Type :=
| OPUS_SET_VBR (x : Z)
| OPUS_SET_VBR_CONSTRAINT (x : Z)
| OPUS_SET_BITRATE (x : Z)
| OPUS_SET_COMPLEXITY (x : Z)
| OPUS_SET_SIGNAL (x : Z)
| OPUS_SET_LSB_DEPTH (x : Z)
| OPUS_SET_DTX (x : Z)
| OPUS_SET_INBAND_FEC (x : Z)
| OPUS_SET_PACKET_LOSS_PERC (x : Z).

(** Everything the bridge does to the outside, in the order it does it.
    A codec event records the arguments passed; [EvEncoderCreate],
    [EvDecoderCreate] and [EvEncoderCtl] record the codec's answer too. *)
Inductive Event : Type :=
| LogI (fmt : string) (args : list Z)
| LogE (fmt : string) (args : list Z)
| EvGetShortArrayElements (a : ref)
| EvGetByteArrayElements (a : ref)
| EvGetArrayLength (a : ref)
| EvReleaseShortArrayElements (a : ref) (mode : Z)
| EvReleaseByteArrayElements (a : ref) (mode : Z)
| EvEncoderCreate (Fs channels application : Z) (st error : Z)
| EvEncoderCtl (st : Z) (req : CtlRequest) (ret : Z)
| EvDecoderCreate (Fs channels : Z) (st error : Z)
| EvEncode (st : Z) (pcm : list Z) (frame_size : Z) (data : list Z)
    (max_data_bytes : Z)
| EvDecode (st : Z) (data : list Z) (len : Z) (pcm : list Z)
    (frame_size : Z) (decode_fec : Z)
| EvEncoderDestroy (st : Z)
| EvDecoderDestroy (st : Z).

(** The state: [lib] is the codec library's own state, [arrays] the
    managed heap's array objects, [leases] the arrays whose elements are
    currently lent to native code (one entry per outstanding
    [Get<Type>ArrayElements]), [trace] the events so far, oldest first. *)
Record World (S : Type) : Type := mkWorld {
  lib : S;
  arrays : gmap ref (list Z);
  leases : list ref;
  trace : list Event
}.
Arguments mkWorld {S} _ _ _ _.
Arguments lib {S} _.
Arguments arrays {S} _.
Arguments leases {S} _.
Arguments trace {S} _.

(** Computations over the world: a state monad, with stdpp's notations
    [x ← m; k] and [m;; k]. *)
Definition M (S A : Type) : Type := World S → A * World S.

Definition ret {S A} (a : A) : M S A := λ w, (a, w).

Definition bind {S A B} (m : M S A) (k : A → M S B) : M S B :=
  λ w, let '(a, w1) := m w in k a w1.

#[global] Instance M_ret {S} : MRet (M S) := λ A, ret.
#[global] Instance M_bind {S} : MBind (M S) := λ A B k m, bind m k.

Definition emit {S} (e : Event) : M S unit :=
  λ w, (tt, mkWorld (lib w) (arrays w) (leases w) (trace w ++ [e])).

(** ** The managed runtime seen through JNI *)

(** Elements of an array object.  A non-null reference handed to native
    code denotes a live object; the default covers the other keys. *)
Definition elems {S} (w : World S) (a : ref) : list Z :=
  default [] (arrays w !! a).

(** Writing a native buffer back over an array object keeps the object's
    length.  A codec that writes past the buffer it was given is outside
    the model: what it hands back beyond the array's length is not
    copied. *)
Definition overlay (buf old : list Z) : list Z :=
  take (length old) buf ++ drop (length buf) old.

Definition copy_back {S} (a : ref) (buf : list Z) (w : World S) : World S :=
  mkWorld (lib w) (alter (overlay buf) a (arrays w)) (leases w) (trace w).

(** Give up one outstanding lease on [a]. *)
Fixpoint drop_lease (a : ref) (l : list ref) : list ref :=
  match l with
  | [] => []
  | b :: l' => if decide (a = b) then l' else b :: drop_lease a l'
  end.

Arguments drop_lease : simpl never.

Definition unlease {S} (a : ref) (w : World S) : World S :=
  mkWorld (lib w) (arrays w) (drop_lease a (leases w)) (trace w).

(** [Get<Type>ArrayElements(array, 0)]: takes a lease on the array and
    hands out a native buffer holding its elements.  Whether the runtime
    pins the object or copies it is not observable within one call. *)
Definition get_elements {S} (e : Event) (a : ref) : M S (list Z) :=
  λ w, (elems w a,
        mkWorld (lib w) (arrays w) (a :: leases w) (trace w ++ [e])).

Definition GetShortArrayElements {S} (a : ref) : M S (list Z) :=
  get_elements (EvGetShortArrayElements a) a.

Definition GetByteArrayElements {S} (a : ref) : M S (list Z) :=
  get_elements (EvGetByteArrayElements a) a.

Definition GetArrayLength {S} (a : ref) : M S Z :=
  λ w, (Z.of_nat (length (elems w a)),
        mkWorld (lib w) (arrays w) (leases w)
          (trace w ++ [EvGetArrayLength a])).

(** [Release<Type>ArrayElements(array, elems, mode)]: mode [0] copies the
    buffer back and ends the lease, [JNI_COMMIT] copies back only,
    [JNI_ABORT] ends the lease only. *)
Definition release_elements {S} (e : Event) (a : ref) (buf : list Z)
    (mode : Z) : M S unit :=
  λ w,
    let w1 := if mode =? JNI_ABORT then w else copy_back a buf w in
    let w2 := if mode =? JNI_COMMIT then w1 else unlease a w1 in
    emit e w2.

Definition ReleaseShortArrayElements {S} (a : ref) (buf : list Z) (mode : Z)
    : M S unit :=
  release_elements (EvReleaseShortArrayElements a mode) a buf mode.

Definition ReleaseByteArrayElements {S} (a : ref) (buf : list Z) (mode : Z)
    : M S unit :=
  release_elements (EvReleaseByteArrayElements a mode) a buf mode.

(** [NewStringUTF]: the fresh string object is the value returned. *)
Definition NewStringUTF {S} (s : string) : M S string := ret s.

(** [LOGI] and [LOGE]: [__android_log_print] at info and error level. *)
Definition LOGI {S} (fmt : string) (args : list Z) : M S unit :=
  emit (LogI fmt args).

Definition LOGE {S} (fmt : string) (args : list Z) : M S unit :=
  emit (LogE fmt args).

(** ** The codec library, as the bridge consumes it *)

(** The primitives of [opus.h] the bridge calls, over a library state [S].
    Addresses of encoder and decoder objects are integers, the null
    pointer is [0].  [opus_encoder_create] and [opus_decoder_create]
    answer the object's address and the value stored through the [error]
    pointer; [opus_encode] answers its return value and the new contents
    of the output buffer [data], [opus_decode] likewise for [pcm].  The
    three constants are those of [opus_defines.h]. *)
Class OpusLib (S : Type) : Type := {
  OPUS_OK : Z;
  OPUS_APPLICATION_VOIP : Z;
  OPUS_SIGNAL_VOICE : Z;
  opus_encoder_create : Z → Z → Z → S → (Z * Z) * S;
  opus_encoder_ctl : Z → CtlRequest → S → Z * S;
  opus_decoder_create : Z → Z → S → (Z * Z) * S;
  opus_encode : Z → list Z → Z → list Z → Z → S → (Z * list Z) * S;
  opus_decode : Z → list Z → Z → list Z → Z → Z → S → (Z * list Z) * S;
  opus_encoder_destroy : Z → S → S;
  opus_decoder_destroy : Z → S → S;
  opus_get_version_string : string;
  opus_encoder_get_size : Z → Z;
  opus_decoder_get_size : Z → Z
}.

(** A call into the library: runs it on the library state and records
    the event [e] built from its answer. *)
Definition codec_call {S A} (f : S → A * S) (e : A → Event) : M S A :=
  λ w, let '(a, st) := f (lib w) in
       (a, mkWorld st (arrays w) (leases w) (trace w ++ [e a])).

(** ** opus_jni.cpp: the bridge wired to the codec *)

Module OpusJni.
Section Bridge.
Context {S : Type} {L : OpusLib S}.

(** [opus_encoder_ctl(st, request)]; every call site discards the
    return value. *)
Definition ctl (st : Z) (req : CtlRequest) : M S unit :=
  codec_call (opus_encoder_ctl st req) (EvEncoderCtl st req);; mret tt.

Definition Java_org_stypox_dicio_io_audio_OpusNative_createEncoder
    (sampleRateInHz channelConfig complexity bitrate : Z) : M S Z :=
  '(pOpusEnc, error) ←
    codec_call
      (opus_encoder_create sampleRateInHz channelConfig OPUS_APPLICATION_VOIP)
      (λ r, EvEncoderCreate sampleRateInHz channelConfig OPUS_APPLICATION_VOIP
              r.1 r.2);
  (if negb (pOpusEnc =? 0) && (error =? OPUS_OK) then
     ctl pOpusEnc (OPUS_SET_VBR 0);;
     ctl pOpusEnc (OPUS_SET_VBR_CONSTRAINT 1);;
     ctl pOpusEnc (OPUS_SET_BITRATE bitrate);;
     ctl pOpusEnc (OPUS_SET_COMPLEXITY complexity);;
     ctl pOpusEnc (OPUS_SET_SIGNAL OPUS_SIGNAL_VOICE);;
     ctl pOpusEnc (OPUS_SET_LSB_DEPTH 16);;
     ctl pOpusEnc (OPUS_SET_DTX 0);;
     ctl pOpusEnc (OPUS_SET_INBAND_FEC 0);;
     ctl pOpusEnc (OPUS_SET_PACKET_LOSS_PERC 0);;
     LOGI "✅ Opus编码器创建成功: %dHz, %dch, 复杂度%d, 比特率%d"
       [sampleRateInHz; channelConfig; complexity; bitrate]
   else
     LOGE "❌ Opus编码器创建失败: error=%d" [error]);;
  mret pOpusEnc.

Definition Java_org_stypox_dicio_io_audio_OpusNative_createDecoder
    (sampleRateInHz channelConfig : Z) : M S Z :=
  '(pOpusDec, error) ←
    codec_call (opus_decoder_create sampleRateInHz channelConfig)
      (λ r, EvDecoderCreate sampleRateInHz channelConfig r.1 r.2);
  (if negb (pOpusDec =? 0) && (error =? OPUS_OK) then
     LOGI "✅ Opus解码器创建成功: %dHz, %dch" [sampleRateInHz; channelConfig]
   else
     LOGE "❌ Opus解码器创建失败: error=%d" [error]);;
  mret pOpusDec.

Definition Java_org_stypox_dicio_io_audio_OpusNative_encode
    (pOpusEnc : Z) (samples : jarray) (frameSize : Z) (bytes : jarray)
    : M S Z :=
  let pEnc := pOpusEnc in
  match pEnc =? 0, samples, bytes with
  | false, Some samples, Some bytes =>
      pSamples ← GetShortArrayElements samples;
      nSampleSize ← GetArrayLength samples;
      pBytes ← GetByteArrayElements bytes;
      nByteSize ← GetArrayLength bytes;
      if (nSampleSize <? frameSize) || (nByteSize <=? 0) then
        LOGE "❌ encode: 数据大小不匹配 samples=%d, frameSize=%d, bytes=%d"
          [nSampleSize; frameSize; nByteSize];;
        ReleaseShortArrayElements samples pSamples 0;;
        ReleaseByteArrayElements bytes pBytes 0;;
        mret (-1)
      else
        '(nRet, pBytes) ←
          codec_call (opus_encode pEnc pSamples frameSize pBytes nByteSize)
            (λ _, EvEncode pEnc pSamples frameSize pBytes nByteSize);
        (if nRet <? 0 then LOGE "❌ opus_encode失败: %d" [nRet] else mret tt);;
        ReleaseShortArrayElements samples pSamples 0;;
        ReleaseByteArrayElements bytes pBytes 0;;
        mret nRet
  | _, _, _ =>
      LOGE "❌ encode: 无效参数" [];;
      mret (-1)
  end.

Definition Java_org_stypox_dicio_io_audio_OpusNative_decode
    (pOpusDec : Z) (bytes : jarray) (bytesLength : Z) (samples : jarray)
    (frameSize : Z) : M S Z :=
  let pDec := pOpusDec in
  match pDec =? 0, samples, bytes with
  | false, Some samples, Some bytes =>
      pSamples ← GetShortArrayElements samples;
      pBytes ← GetByteArrayElements bytes;
      nShortSize ← GetArrayLength samples;
      if (bytesLength <=? 0) || (nShortSize <? frameSize) then
        LOGE "❌ decode: 数据大小不匹配 bytesLength=%d, samples=%d, frameSize=%d"
          [bytesLength; nShortSize; frameSize];;
        ReleaseShortArrayElements samples pSamples 0;;
        ReleaseByteArrayElements bytes pBytes 0;;
        mret (-1)
      else
        '(nRet, pSamples) ←
          codec_call (opus_decode pDec pBytes bytesLength pSamples frameSize 0)
            (λ _, EvDecode pDec pBytes bytesLength pSamples frameSize 0);
        (if nRet <? 0 then LOGE "❌ opus_decode失败: %d" [nRet] else mret tt);;
        ReleaseShortArrayElements samples pSamples 0;;
        ReleaseByteArrayElements bytes pBytes 0;;
        mret nRet
  | _, _, _ =>
      LOGE "❌ decode: 无效参数" [];;
      mret (-1)
  end.

Definition Java_org_stypox_dicio_io_audio_OpusNative_destroyEncoder
    (pOpusEnc : Z) : M S unit :=
  let pEnc := pOpusEnc in
  if negb (pEnc =? 0) then
    codec_call (λ st, (tt, opus_encoder_destroy pEnc st))
      (λ _, EvEncoderDestroy pEnc);;
    LOGI "🧹 Opus编码器已销毁" []
  else mret tt.

Definition Java_org_stypox_dicio_io_audio_OpusNative_destroyDecoder
    (pOpusDec : Z) : M S unit :=
  let pDec := pOpusDec in
  if negb (pDec =? 0) then
    codec_call (λ st, (tt, opus_decoder_destroy pDec st))
      (λ _, EvDecoderDestroy pDec);;
    LOGI "🧹 Opus解码器已销毁" []
  else mret tt.

Definition Java_org_stypox_dicio_io_audio_OpusNative_getVersion
    : M S string :=
  NewStringUTF opus_get_version_string.

Definition Java_org_stypox_dicio_io_audio_OpusNative_getEncoderSize
    (channels : Z) : M S Z :=
  mret (opus_encoder_get_size channels).

Definition Java_org_stypox_dicio_io_audio_OpusNative_getDecoderSize
    (channels : Z) : M S Z :=
  mret (opus_decoder_get_size channels).

End Bridge.

Abbreviation createEncoder :=
  Java_org_stypox_dicio_io_audio_OpusNative_createEncoder.
Abbreviation createDecoder :=
  Java_org_stypox_dicio_io_audio_OpusNative_createDecoder.
Abbreviation encode := Java_org_stypox_dicio_io_audio_OpusNative_encode.
Abbreviation decode := Java_org_stypox_dicio_io_audio_OpusNative_decode.
Abbreviation destroyEncoder :=
  Java_org_stypox_dicio_io_audio_OpusNative_destroyEncoder.
Abbreviation destroyDecoder :=
  Java_org_stypox_dicio_io_audio_OpusNative_destroyDecoder.
Abbreviation getVersion := Java_org_stypox_dicio_io_audio_OpusNative_getVersion.
Abbreviation getEncoderSize :=
  Java_org_stypox_dicio_io_audio_OpusNative_getEncoderSize.
Abbreviation getDecoderSize :=
  Java_org_stypox_dicio_io_audio_OpusNative_getDecoderSize.
End OpusJni.

(** ** opus_jni_stub.cpp: the same call surface without a codec *)

Module OpusJniStub.
Section Stub.
Context {S : Type}.

Definition Java_org_stypox_dicio_io_audio_OpusNative_getVersion
    : M S string :=
  NewStringUTF "Opus JNI Test Version 1.0 - Ready for real Opus integration".

Definition Java_org_stypox_dicio_io_audio_OpusNative_createEncoder
    (sampleRateInHz channelConfig complexity bitrate : Z) : M S Z :=
  LOGI "🚧 createEncoder called - stub implementation" [];;
  mret 0.

Definition Java_org_stypox_dicio_io_audio_OpusNative_createDecoder
    (sampleRateInHz channelConfig : Z) : M S Z :=
  LOGI "🚧 createDecoder called - stub implementation" [];;
  mret 0.

Definition Java_org_stypox_dicio_io_audio_OpusNative_encode
    (pOpusEnc : Z) (samples : jarray) (frameSize : Z) (bytes : jarray)
    : M S Z :=
  LOGI "🚧 encode called - stub implementation" [];;
  mret (-1).

Definition Java_org_stypox_dicio_io_audio_OpusNative_decode
    (pOpusDec : Z) (bytes : jarray) (bytesLength : Z) (samples : jarray)
    (frameSize : Z) : M S Z :=
  LOGI "🚧 decode called - stub implementation" [];;
  mret (-1).

Definition Java_org_stypox_dicio_io_audio_OpusNative_destroyEncoder
    (pOpusEnc : Z) : M S unit :=
  LOGI "🚧 destroyEncoder called - stub implementation" [].

Definition Java_org_stypox_dicio_io_audio_OpusNative_destroyDecoder
    (pOpusDec : Z) : M S unit :=
  LOGI "🚧 destroyDecoder called - stub implementation" [].

Definition Java_org_stypox_dicio_io_audio_OpusNative_getEncoderSize
    (channels : Z) : M S Z :=
  LOGI "🚧 getEncoderSize called - stub implementation" [];;
  mret 0.

Definition Java_org_stypox_dicio_io_audio_OpusNative_getDecoderSize
    (channels : Z) : M S Z :=
  LOGI "🚧 getDecoderSize called - stub implementation" [];;
  mret 0.

End Stub.

Abbreviation createEncoder :=
  Java_org_stypox_dicio_io_audio_OpusNative_createEncoder.
Abbreviation createDecoder :=
  Java_org_stypox_dicio_io_audio_OpusNative_createDecoder.
Abbreviation encode := Java_org_stypox_dicio_io_audio_OpusNative_encode.
Abbreviation decode := Java_org_stypox_dicio_io_audio_OpusNative_decode.
Abbreviation destroyEncoder :=
  Java_org_stypox_dicio_io_audio_OpusNative_destroyEncoder.
Abbreviation destroyDecoder :=
  Java_org_stypox_dicio_io_audio_OpusNative_destroyDecoder.
Abbreviation getVersion :=
  Java_org_stypox_dicio_io_audio_OpusNative_getVersion.
Abbreviation getEncoderSize :=
  Java_org_stypox_dicio_io_audio_OpusNative_getEncoderSize.
Abbreviation getDecoderSize :=
  Java_org_stypox_dicio_io_audio_OpusNative_getDecoderSize.
End OpusJniStub.

(** ** A reference instance of the codec interface

    A small executable library with which the bridge runs on concrete
    inputs.  It hands out fresh non-null addresses, and enforces the
    parameter ranges of the interface: sample rates 8/12/16/24/48 kHz,
    one or two channels, complexity 0 to 10, a positive bitrate.  Error
    codes are those of [opus_defines.h]. *)

Module RefLib.

Definition OPUS_BAD_ARG : Z := -1.
Definition OPUS_BUFFER_TOO_SMALL : Z := -2.
Definition OPUS_INVALID_PACKET : Z := -4.

(** Library state: the next free address, the live objects, and the
    settings each encoder has accepted, newest first. *)
Record St : Type := mkSt {
  next_addr : Z;
  live : list Z;
  settings : list (Z * CtlRequest)
}.

Definition init : St := mkSt 4096 [] [].

Definition rate_ok (Fs : Z) : bool :=
  bool_decide (Fs ∈ [8000; 12000; 16000; 24000; 48000]).

Definition channels_ok (channels : Z) : bool :=
  bool_decide (channels ∈ [1; 2]).

Definition flag_ok (x : Z) : bool := bool_decide (x ∈ [0; 1]).

Definition request_ok (req : CtlRequest) : bool :=
  match req with
  | OPUS_SET_VBR x | OPUS_SET_VBR_CONSTRAINT x
  | OPUS_SET_DTX x | OPUS_SET_INBAND_FEC x => flag_ok x
  | OPUS_SET_BITRATE x => 0 <? x
  | OPUS_SET_COMPLEXITY x => (0 <=? x) && (x <=? 10)
  | OPUS_SET_SIGNAL x => bool_decide (x ∈ [-1000; 3001; 3002])
  | OPUS_SET_LSB_DEPTH x => (8 <=? x) && (x <=? 24)
  | OPUS_SET_PACKET_LOSS_PERC x => (0 <=? x) && (x <=? 100)
  end.

Definition create (Fs channels : Z) (st : St) : (Z * Z) * St :=
  if rate_ok Fs && channels_ok channels then
    ((next_addr st, 0),
     mkSt (next_addr st + 4096) (next_addr st :: live st) (settings st))
  else ((0, OPUS_BAD_ARG), st).

Definition encoder_ctl (p : Z) (req : CtlRequest) (st : St) : Z * St :=
  if request_ok req then
    (0, mkSt (next_addr st) (live st) ((p, req) :: settings st))
  else (OPUS_BAD_ARG, st).

(** A frame compresses to three bytes. *)
Definition encode (p : Z) (pcm : list Z) (frame_size : Z) (data : list Z)
    (max_data_bytes : Z) (st : St) : (Z * list Z) * St :=
  if (frame_size <=? 0) || (Z.of_nat (length pcm) <? frame_size) then
    ((OPUS_BAD_ARG, data), st)
  else if max_data_bytes <? 3 then ((OPUS_BUFFER_TOO_SMALL, data), st)
  else ((3, [8; 0; 0] ++ drop 3 data), st).

(** A packet decodes to [frame_size] samples of silence; a packet
    announced longer than the bytes at hand is invalid. *)
Definition decode (p : Z) (data : list Z) (len : Z) (pcm : list Z)
    (frame_size decode_fec : Z) (st : St) : (Z * list Z) * St :=
  if Z.of_nat (length data) <? len then ((OPUS_INVALID_PACKET, pcm), st)
  else if frame_size <=? 0 then ((OPUS_BAD_ARG, pcm), st)
  else
    ((frame_size,
      replicate (Z.to_nat frame_size) 0 ++ drop (Z.to_nat frame_size) pcm),
     st).

Definition destroy (p : Z) (st : St) : St :=
  mkSt (next_addr st) (filter (λ q, q ≠ p) (live st)) (settings st).

Definition get_size (channels : Z) : Z :=
  if channels_ok channels then 4096 * channels else 0.

#[global] Instance opus : OpusLib St := {|
  OPUS_OK := 0;
  OPUS_APPLICATION_VOIP := 2048;
  OPUS_SIGNAL_VOICE := 3001;
  opus_encoder_create := λ Fs channels application, create Fs channels;
  opus_encoder_ctl := encoder_ctl;
  opus_decoder_create := create;
  opus_encode := encode;
  opus_decode := decode;
  opus_encoder_destroy := destroy;
  opus_decoder_destroy := destroy;
  opus_get_version_string := "libopus 1.3.1";
  opus_encoder_get_size := get_size;
  opus_decoder_get_size := get_size
|}.

(** A world with two array objects: [1] holds [n] samples of silence,
    [2] holds [m] zero bytes. *)
Definition world (n m : nat) : World St :=
  mkWorld init (<[1%positive := replicate n 0]>
                 (<[2%positive := replicate m 0]> ∅)) [] [].

End RefLib.

(** ** Observations on worlds and runs *)

(** The array length as the bridge reads it. *)
Definition array_length {S} (w : World S) (a : ref) : Z :=
  Z.of_nat (length (elems w a)).

(** The world after a run that appended [evs] and left the rest alone. *)
Definition logged {S} (w : World S) (evs : list Event) : World S :=
  mkWorld (lib w) (arrays w) (leases w) (trace w ++ evs).

(** The error line the bridge logs after a codec call that answered [n]. *)
Definition codec_failure_log (fmt : string) (n : Z) : list Event :=
  if n <? 0 then [LogE fmt [n]] else [].

(** Arrays on which a lease was taken, in order. *)
Definition acquisitions (evs : list Event) : list ref :=
  omap (λ e, match e with
             | EvGetShortArrayElements a | EvGetByteArrayElements a => Some a
             | _ => None
             end) evs.

(** Arrays on which a lease was ended, in order ([JNI_COMMIT] keeps it). *)
Definition releases (evs : list Event) : list ref :=
  omap (λ e, match e with
             | EvReleaseShortArrayElements a mode
             | EvReleaseByteArrayElements a mode =>
                 if mode =? JNI_COMMIT then None else Some a
             | _ => None
             end) evs.

(** The event obtains or gives back direct access to array memory. *)
Definition buffer_access (e : Event) : bool :=
  match e with
  | EvGetShortArrayElements _ | EvGetByteArrayElements _
  | EvReleaseShortArrayElements _ _ | EvReleaseByteArrayElements _ _ => true
  | _ => false
  end.

(** The event is a call into the codec library. *)
Definition codec_invocation (e : Event) : bool :=
  match e with
  | EvEncoderCreate _ _ _ _ _ | EvEncoderCtl _ _ _ | EvDecoderCreate _ _ _ _
  | EvEncode _ _ _ _ _ | EvDecode _ _ _ _ _ _
  | EvEncoderDestroy _ | EvDecoderDestroy _ => true
  | _ => false
  end.

(** Configuration requests sent to the encoder at [st], in order. *)
Definition requests_to (st : Z) (evs : list Event) : list CtlRequest :=
  omap (λ e, match e with
             | EvEncoderCtl st' req _ =>
                 if decide (st' = st) then Some req else None
             | _ => None
             end) evs.

(** A run from [w] to [r] gave back every lease it took: the outstanding
    leases are those of [w], and the events it appended pair every
    acquisition with a release. *)
Definition leases_balanced {S A} (w : World S) (r : A * World S) : Prop :=
  leases r.2 = leases w
  ∧ ∃ evs, trace r.2 = trace w ++ evs ∧ acquisitions evs = releases evs.

(** The bridge-level preconditions of [encode] and [decode], negated. *)
Definition encode_precondition_violated {S} (w : World S) (pOpusEnc : Z)
    (samples : jarray) (frameSize : Z) (bytes : jarray) : Prop :=
  pOpusEnc = 0 ∨ samples = None ∨ bytes = None
  ∨ (∃ s b, samples = Some s ∧ bytes = Some b
            ∧ (array_length w s < frameSize ∨ array_length w b ≤ 0)).

Definition decode_precondition_violated {S} (w : World S) (pOpusDec : Z)
    (bytes : jarray) (bytesLength : Z) (samples : jarray) (frameSize : Z)
    : Prop :=
  pOpusDec = 0 ∨ samples = None ∨ bytes = None
  ∨ (∃ s, samples = Some s
          ∧ (bytesLength ≤ 0 ∨ array_length w s < frameSize)).

(** A run that answered [-1] at once: it appended only events that
    neither access array memory nor call the codec. *)
Definition immediate_failure {S} (w : World S) (r : Z * World S) : Prop :=
  r.1 = -1
  ∧ ∃ evs, trace r.2 = trace w ++ evs
           ∧ forallb (λ e, negb (buffer_access e || codec_invocation e)) evs
             = true.

(** A run that answered [-1] without calling the codec, having taken
    leases on exactly the arrays [taken] and ended exactly those; apart
    from the events appended the world is as before. *)
Definition failure_after_leasing {S} (w : World S) (r : Z * World S)
    (taken : list ref) : Prop :=
  r.1 = -1
  ∧ ∃ evs, r.2 = logged w evs
           ∧ forallb (λ e, negb (codec_invocation e)) evs = true
           ∧ acquisitions evs = taken ∧ releases evs = taken.


(** Among the events [evs] the codec answered a configuration request
    with a status other than [OPUS_OK]. *)
Definition configuration_rejected {S} {L : OpusLib S} (evs : list Event)
    : Prop :=
  ∃ st req status, EvEncoderCtl st req status ∈ evs ∧ status ≠ OPUS_OK.

(** The fixed configuration policy of [createEncoder], as the requests
    it stands for. *)
Definition encoder_policy {S} {L : OpusLib S} (complexity bitrate : Z)
    : list CtlRequest :=
  [OPUS_SET_VBR 0; OPUS_SET_VBR_CONSTRAINT 1; OPUS_SET_BITRATE bitrate;
   OPUS_SET_COMPLEXITY complexity; OPUS_SET_SIGNAL OPUS_SIGNAL_VOICE;
   OPUS_SET_LSB_DEPTH 16; OPUS_SET_DTX 0; OPUS_SET_INBAND_FEC 0;
   OPUS_SET_PACKET_LOSS_PERC 0].

(** The sizes a codec call announces are backed by the buffers it is
    given.  For [opus_encode]: a non-null encoder, at least [frame_size]
    samples behind [pcm], and [max_data_bytes] equal to the positive
    length of [data].  For [opus_decode]: a non-null decoder, a positive
    [len], at least [frame_size] samples behind [pcm], and FEC off. *)
Definition well_sized_call (e : Event) : bool :=
  match e with
  | EvEncode st pcm frame_size data max_data_bytes =>
      negb (st =? 0) && (frame_size <=? Z.of_nat (length pcm))
      && (max_data_bytes =? Z.of_nat (length data)) && (0 <? max_data_bytes)
  | EvDecode st data len pcm frame_size decode_fec =>
      negb (st =? 0) && (0 <? len)
      && (frame_size <=? Z.of_nat (length pcm)) && (decode_fec =? 0)
  | _ => true
  end.

(** How many calls into the codec library the events hold. *)
Definition codec_calls (evs : list Event) : nat :=
  length (List.filter codec_invocation evs).

(** The events of a run from [w] to [r]. *)
Definition appended {S A} (w : World S) (r : A * World S)
    (evs : list Event) : Prop :=
  trace r.2 = trace w ++ evs.

(** The error-level log lines among the events. *)
Definition error_lines (evs : list Event) : list Event :=
  List.filter (λ e, match e with LogE _ _ => true | _ => false end) evs.

(** A run that left the arrays and the leases as they were. *)
Definition heap_untouched {S A} (w : World S) (r : A * World S) : Prop :=
  arrays r.2 = arrays w ∧ leases r.2 = leases w.

(** The codec created the object: non-null, with status [OPUS_OK]; the
    test of [createEncoder] and [createDecoder]. *)
Definition created {S} {L : OpusLib S} (r : Z * Z) : bool :=
  negb (r.1 =? 0) && (r.2 =? OPUS_OK).

(** A caller's whole encoder session on one frame: create, encode with
    the handle obtained, destroy it; the handle and the result of
    [encode] are the outcome. *)
Definition encoder_session {S} {L : OpusLib S}
    (sampleRateInHz channelConfig complexity bitrate : Z) (samples : jarray)
    (frameSize : Z) (bytes : jarray) : M S (Z * Z) :=
  h ← OpusJni.createEncoder sampleRateInHz channelConfig complexity bitrate;
  n ← OpusJni.encode h samples frameSize bytes;
  OpusJni.destroyEncoder h;;
  mret (h, n).

(** The same for a decoder. *)
Definition decoder_session {S} {L : OpusLib S}
    (sampleRateInHz channelConfig : Z) (bytes : jarray) (bytesLength : Z)
    (samples : jarray) (frameSize : Z) : M S (Z * Z) :=
  h ← OpusJni.createDecoder sampleRateInHz channelConfig;
  n ← OpusJni.decode h bytes bytesLength samples frameSize;
  OpusJni.destroyDecoder h;;
  mret (h, n).

(** Handing the encoder at [st] the requests [reqs] one after the
    other: each request with the status the codec answers, and the
    library state at the end. *)
Fixpoint run_requests {S} {L : OpusLib S} (st : Z) (reqs : list CtlRequest)
    (s : S) : list (CtlRequest * Z) * S :=
  match reqs with
  | [] => ([], s)
  | req :: reqs' =>
      let '(status, s1) := opus_encoder_ctl st req s in
      let '(answers, s2) := run_requests st reqs' s1 in
      ((req, status) :: answers, s2)
  end.

(** Configuration requests sent to the encoder at [st], each with the
    status the codec answered, in order. *)
Definition answers_to (st : Z) (evs : list Event)
    : list (CtlRequest * Z) :=
  omap (λ e, match e with
             | EvEncoderCtl st' req status =>
                 if decide (st' = st) then Some (req, status) else None
             | _ => None
             end) evs.

(** The policy is in force on the encoder at [st]: it was sent every
    request of the policy, in order, and the codec accepted each. *)
Definition policy_accepted {S} {L : OpusLib S} (st : Z)
    (complexity bitrate : Z) (evs : list Event) : Prop :=
  answers_to st evs
  = (λ req, (req, OPUS_OK)) <$> encoder_policy complexity bitrate.


(** The codec stays within the output buffer it is given: what
    [opus_encode] hands back as [data], and [opus_decode] as [pcm], has
    the length of the buffer passed in. *)
Definition encode_in_bounds {S} {L : OpusLib S} (st : Z) (pcm : list Z)
    (frame_size : Z) (data : list Z) (s : S) : Prop :=
  length (opus_encode st pcm frame_size data (Z.of_nat (length data)) s).1.2
  = length data.

Definition decode_in_bounds {S} {L : OpusLib S} (st : Z) (data : list Z)
    (len : Z) (pcm : list Z) (frame_size : Z) (s : S) : Prop :=
  length (opus_decode st data len pcm frame_size 0 s).1.2 = length pcm.

(** * Properties *)

(** ** Leases, copy-back and the shape of a run *)

Lemma overlay_same (l : list Z) : overlay l l = l.
Proof. unfold overlay. by rewrite firstn_all, drop_all, app_nil_r. Qed.

Lemma copy_back_elems {S} (w : World S) (a : ref) :
  copy_back a (elems w a) w = w.
Proof.
  destruct w as [st arr ls tr]. unfold copy_back, elems. simpl. f_equal.
  apply alter_id. intros x Hx. rewrite Hx. apply overlay_same.
Qed.

Lemma drop_lease_head (a : ref) (l : list ref) : drop_lease a (a :: l) = l.
Proof. unfold drop_lease. by rewrite decide_True. Qed.

Lemma drop_lease_second (a b : ref) (l : list ref) :
  drop_lease a (b :: a :: l) = b :: l.
Proof.
  unfold drop_lease.
  destruct (decide (a = b)) as [->|]; [done|]. by rewrite decide_True.
Qed.

Ltac run_bridge :=
  unfold mbind, M_bind, bind, mret, M_ret, ret, LOGE, LOGI, emit,
    GetShortArrayElements, GetByteArrayElements, get_elements,
    GetArrayLength, ReleaseShortArrayElements, ReleaseByteArrayElements,
    release_elements, unlease, codec_call, logged, array_length in *;
  simpl in *.

Ltac tidy_trace := rewrite <- ?app_assoc; simpl.

Section Runs.
Context {S : Type} {L : OpusLib S}.

Lemma encode_null_run (pOpusEnc : Z) (samples bytes : jarray) (frameSize : Z)
    (w : World S) :
  pOpusEnc = 0 ∨ samples = None ∨ bytes = None →
  OpusJni.encode pOpusEnc samples frameSize bytes w
  = (-1, logged w [LogE "❌ encode: 无效参数" []]).
Proof.
  unfold OpusJni.encode. intros H.
  destruct (pOpusEnc =? 0) eqn:E, samples, bytes; try reflexivity.
  apply Z.eqb_neq in E. destruct H as [?|[?|?]]; done.
Qed.

Lemma decode_null_run (pOpusDec : Z) (bytes : jarray) (bytesLength : Z)
    (samples : jarray) (frameSize : Z) (w : World S) :
  pOpusDec = 0 ∨ samples = None ∨ bytes = None →
  OpusJni.decode pOpusDec bytes bytesLength samples frameSize w
  = (-1, logged w [LogE "❌ decode: 无效参数" []]).
Proof.
  unfold OpusJni.decode. intros H.
  destruct (pOpusDec =? 0) eqn:E, samples, bytes; try reflexivity.
  apply Z.eqb_neq in E. destruct H as [?|[?|?]]; done.
Qed.

Lemma encode_mismatch_run (pOpusEnc : Z) (s b : ref) (frameSize : Z)
    (w : World S) :
  pOpusEnc ≠ 0 →
  array_length w s < frameSize ∨ array_length w b ≤ 0 →
  OpusJni.encode pOpusEnc (Some s) frameSize (Some b) w
  = (-1, logged w
      [EvGetShortArrayElements s; EvGetArrayLength s;
       EvGetByteArrayElements b; EvGetArrayLength b;
       LogE "❌ encode: 数据大小不匹配 samples=%d, frameSize=%d, bytes=%d"
         [array_length w s; frameSize; array_length w b];
       EvReleaseShortArrayElements s 0; EvReleaseByteArrayElements b 0]).
Proof.
  intros Hp Hsz. unfold OpusJni.encode.
  apply Z.eqb_neq in Hp. rewrite Hp. run_bridge.
  replace ((_ <? frameSize) || (_ <=? 0)) with true
    by (symmetry; apply orb_true_iff; rewrite Z.ltb_lt, Z.leb_le; exact Hsz).
  simpl. f_equal.
  pose proof (copy_back_elems w s) as Hs. pose proof (copy_back_elems w b) as Hb.
  destruct w as [st arr ls tr]. unfold copy_back, elems in *. simpl in *.
  injection Hs as Hs. injection Hb as Hb. rewrite Hs, Hb.
  rewrite drop_lease_second, drop_lease_head. tidy_trace. reflexivity.
Qed.

Lemma decode_mismatch_run (pOpusDec : Z) (b : ref) (bytesLength : Z)
    (s : ref) (frameSize : Z) (w : World S) :
  pOpusDec ≠ 0 →
  bytesLength ≤ 0 ∨ array_length w s < frameSize →
  OpusJni.decode pOpusDec (Some b) bytesLength (Some s) frameSize w
  = (-1, logged w
      [EvGetShortArrayElements s; EvGetByteArrayElements b;
       EvGetArrayLength s;
       LogE "❌ decode: 数据大小不匹配 bytesLength=%d, samples=%d, frameSize=%d"
         [bytesLength; array_length w s; frameSize];
       EvReleaseShortArrayElements s 0; EvReleaseByteArrayElements b 0]).
Proof.
  intros Hp Hsz. unfold OpusJni.decode.
  apply Z.eqb_neq in Hp. rewrite Hp. run_bridge.
  replace ((bytesLength <=? 0) || (_ <? frameSize)) with true
    by (symmetry; apply orb_true_iff; rewrite Z.ltb_lt, Z.leb_le; exact Hsz).
  simpl. f_equal.
  pose proof (copy_back_elems w s) as Hs. pose proof (copy_back_elems w b) as Hb.
  destruct w as [st arr ls tr]. unfold copy_back, elems in *. simpl in *.
  injection Hs as Hs. injection Hb as Hb. rewrite Hs, Hb.
  rewrite drop_lease_second, drop_lease_head. tidy_trace. reflexivity.
Qed.

Lemma encode_codec_run (pOpusEnc : Z) (s b : ref) (frameSize : Z)
    (w : World S) (n : Z) (out : list Z) (st' : S) :
  pOpusEnc ≠ 0 →
  frameSize ≤ array_length w s →
  0 < array_length w b →
  opus_encode pOpusEnc (elems w s) frameSize (elems w b) (array_length w b)
    (lib w) = ((n, out), st') →
  OpusJni.encode pOpusEnc (Some s) frameSize (Some b) w
  = (n, mkWorld st' (alter (overlay out) b (arrays w)) (leases w)
          (trace w ++
           [EvGetShortArrayElements s; EvGetArrayLength s;
            EvGetByteArrayElements b; EvGetArrayLength b;
            EvEncode pOpusEnc (elems w s) frameSize (elems w b)
              (array_length w b)] ++
           codec_failure_log "❌ opus_encode失败: %d" n ++
           [EvReleaseShortArrayElements s 0;
            EvReleaseByteArrayElements b 0])).
Proof.
  intros Hp Hs Hb Hcodec. unfold OpusJni.encode.
  apply Z.eqb_neq in Hp. rewrite Hp. run_bridge.
  replace ((_ <? frameSize) || (_ <=? 0)) with false
    by (symmetry; apply orb_false_iff; rewrite Z.ltb_ge, Z.leb_gt; done).
  pose proof (copy_back_elems w s) as Hcs.
  destruct w as [st arr ls tr]. unfold copy_back, elems in *. simpl in *.
  rewrite Hcodec. injection Hcs as Hcs. unfold codec_failure_log.
  destruct (n <? 0); simpl; rewrite Hcs, drop_lease_second, drop_lease_head;
    tidy_trace; reflexivity.
Qed.

Lemma decode_codec_run (pOpusDec : Z) (b : ref) (bytesLength : Z) (s : ref)
    (frameSize : Z) (w : World S) (n : Z) (out : list Z) (st' : S) :
  pOpusDec ≠ 0 →
  0 < bytesLength →
  frameSize ≤ array_length w s →
  opus_decode pOpusDec (elems w b) bytesLength (elems w s) frameSize 0
    (lib w) = ((n, out), st') →
  OpusJni.decode pOpusDec (Some b) bytesLength (Some s) frameSize w
  = (n, mkWorld st'
          (alter (overlay (elems w b)) b (alter (overlay out) s (arrays w)))
          (leases w)
          (trace w ++
           [EvGetShortArrayElements s; EvGetByteArrayElements b;
            EvGetArrayLength s;
            EvDecode pOpusDec (elems w b) bytesLength (elems w s) frameSize 0]
           ++ codec_failure_log "❌ opus_decode失败: %d" n ++
           [EvReleaseShortArrayElements s 0;
            EvReleaseByteArrayElements b 0])).
Proof.
  intros Hp Hlen Hs Hcodec. unfold OpusJni.decode.
  apply Z.eqb_neq in Hp. rewrite Hp. run_bridge.
  replace ((bytesLength <=? 0) || (_ <? frameSize)) with false
    by (symmetry; apply orb_false_iff; rewrite Z.ltb_ge, Z.leb_gt; done).
  destruct w as [st arr ls tr]. unfold copy_back, elems in *. simpl in *.
  rewrite Hcodec. unfold codec_failure_log.
  destruct (n <? 0); simpl; rewrite drop_lease_second, drop_lease_head;
    tidy_trace; reflexivity.
Qed.

End Runs.

(** ** C1: leases *)

(** C1.  Every call of [encode] and of [decode] in the working variant,
    whichever way it exits (null argument, size mismatch, codec error or
    success), returns with exactly the leases that were outstanding when
    it was entered, and each lease it took during the call it also ended
    during the call.  In particular no lease is outstanding at return when
    none was at entry. *)
Theorem encode_decode_release_every_lease {S : Type} {L : OpusLib S} :
  (∀ (pOpusEnc : Z) (samples : jarray) (frameSize : Z) (bytes : jarray)
     (w : World S),
     leases_balanced w (OpusJni.encode pOpusEnc samples frameSize bytes w))
  ∧ (∀ (pOpusDec : Z) (bytes : jarray) (bytesLength : Z) (samples : jarray)
       (frameSize : Z) (w : World S),
       leases_balanced w
         (OpusJni.decode pOpusDec bytes bytesLength samples frameSize w)).
Proof.
  split.
  - intros h samples fs bytes w.
    destruct (decide (h = 0 ∨ samples = None ∨ bytes = None)) as [Hn|Hn].
    { rewrite encode_null_run by done. split; [done|]. by eexists. }
    destruct samples as [s|], bytes as [b|]; try (exfalso; naive_solver).
    assert (h ≠ 0) as Hh by naive_solver.
    destruct (decide (array_length w s < fs ∨ array_length w b ≤ 0)) as [Hm|Hm].
    { rewrite encode_mismatch_run by done. split; [done|]. by eexists. }
    destruct (opus_encode h (elems w s) fs (elems w b) (array_length w b)
                (lib w)) as [[n out] st'] eqn:Hc.
    rewrite (encode_codec_run h s b fs w n out st') by (done || lia).
    split; [done|]. eexists. split; [done|].
    unfold codec_failure_log. by destruct (n <? 0).
  - intros h bytes len samples fs w.
    destruct (decide (h = 0 ∨ samples = None ∨ bytes = None)) as [Hn|Hn].
    { rewrite decode_null_run by done. split; [done|]. by eexists. }
    destruct samples as [s|], bytes as [b|]; try (exfalso; naive_solver).
    assert (h ≠ 0) as Hh by naive_solver.
    destruct (decide (len ≤ 0 ∨ array_length w s < fs)) as [Hm|Hm].
    { rewrite decode_mismatch_run by done. split; [done|]. by eexists. }
    destruct (opus_decode h (elems w b) len (elems w s) fs 0 (lib w))
      as [[n out] st'] eqn:Hc.
    rewrite (decode_codec_run h b len s fs w n out st') by (done || lia).
    split; [done|]. eexists. split; [done|].
    unfold codec_failure_log. by destruct (n <? 0).
Qed.

(** ** C2: precondition violations *)

(** C2 does not hold as stated: a call of [encode] with a live handle,
    100 samples, a 256-byte output array and [frameSize = 320] violates
    the size precondition and answers [-1], but not at once: before the
    check the bridge has taken direct access to both arrays. *)
Lemma encode_short_frame_is_not_immediate :
  encode_precondition_violated (RefLib.world 100 256) 4096
    (Some 1%positive) 320 (Some 2%positive)
  ∧ ¬ immediate_failure (RefLib.world 100 256)
        (OpusJni.encode 4096 (Some 1%positive) 320 (Some 2%positive)
           (RefLib.world 100 256)).
Proof.
  split.
  - right; right; right. exists 1%positive, 2%positive.
    split; [done|]. split; [done|]. left. by vm_compute.
  - intros [_ (evs & Htr & Hall)]. vm_compute in Htr. subst evs.
    vm_compute in Hall. discriminate.
Qed.

(** C2, amended.  A call of [encode] or [decode] whose handle or either
    array is null answers [-1] at once, without access to array memory
    and without calling the codec.  A call with a live handle and two
    arrays that violates a size precondition ([encode]: fewer samples
    than [frameSize], or an empty output array; [decode]:
    [bytesLength <= 0], or fewer output samples than [frameSize]) answers
    [-1] without calling the codec, after it has taken a lease on both
    arrays and ended both. *)
Theorem precondition_violations_answer_minus_one {S : Type} {L : OpusLib S} :
  (∀ (pOpusEnc : Z) (samples : jarray) (frameSize : Z) (bytes : jarray)
     (w : World S),
     pOpusEnc = 0 ∨ samples = None ∨ bytes = None →
     immediate_failure w (OpusJni.encode pOpusEnc samples frameSize bytes w))
  ∧ (∀ (pOpusEnc : Z) (s : ref) (frameSize : Z) (b : ref) (w : World S),
       pOpusEnc ≠ 0 →
       array_length w s < frameSize ∨ array_length w b ≤ 0 →
       failure_after_leasing w
         (OpusJni.encode pOpusEnc (Some s) frameSize (Some b) w) [s; b])
  ∧ (∀ (pOpusDec : Z) (bytes : jarray) (bytesLength : Z) (samples : jarray)
       (frameSize : Z) (w : World S),
       pOpusDec = 0 ∨ samples = None ∨ bytes = None →
       immediate_failure w
         (OpusJni.decode pOpusDec bytes bytesLength samples frameSize w))
  ∧ (∀ (pOpusDec : Z) (b : ref) (bytesLength : Z) (s : ref) (frameSize : Z)
       (w : World S),
       pOpusDec ≠ 0 →
       bytesLength ≤ 0 ∨ array_length w s < frameSize →
       failure_after_leasing w
         (OpusJni.decode pOpusDec (Some b) bytesLength (Some s) frameSize w)
         [s; b]).
Proof.
  repeat split.
  - by rewrite encode_null_run.
  - rewrite encode_null_run by done. by eexists.
  - by rewrite encode_mismatch_run.
  - rewrite encode_mismatch_run by done. by eexists.
  - by rewrite decode_null_run.
  - rewrite decode_null_run by done. by eexists.
  - by rewrite decode_mismatch_run.
  - rewrite decode_mismatch_run by done. by eexists.
Qed.

Lemma precondition_violations_witness :
  immediate_failure (RefLib.world 320 256)
    (OpusJni.encode 0 (Some 1%positive) 320 (Some 2%positive)
       (RefLib.world 320 256))
  ∧ failure_after_leasing (RefLib.world 100 256)
      (OpusJni.encode 4096 (Some 1%positive) 320 (Some 2%positive)
         (RefLib.world 100 256)) [1%positive; 2%positive]
  ∧ immediate_failure (RefLib.world 320 256)
      (OpusJni.decode 4096 None 3 (Some 1%positive) 320
         (RefLib.world 320 256))
  ∧ failure_after_leasing (RefLib.world 320 256)
      (OpusJni.decode 4096 (Some 2%positive) 0 (Some 1%positive) 320
         (RefLib.world 320 256)) [1%positive; 2%positive].
Proof.
  destruct (@precondition_violations_answer_minus_one RefLib.St RefLib.opus)
    as (Hen & Hes & Hdn & Hds).
  split; [apply Hen; left; reflexivity|].
  split; [apply Hes; [discriminate | left; vm_compute; reflexivity]|].
  split; [apply Hdn; right; right; reflexivity|].
  apply Hds; [discriminate | left; vm_compute; discriminate].
Defined.

(** ** C7: rejected calls leave the arrays alone *)




(** ** C3: what the create calls return *)

(** C3 does not hold as stated: [createEncoder(16000, 1, 11, 16000)]
    asks for complexity 11, outside 0 to 10.  The codec creates the
    encoder and then rejects the complexity request; the bridge discards
    that status and returns the non-zero handle. *)
Lemma createEncoder_rejected_configuration_keeps_handle :
  configuration_rejected
    (trace (OpusJni.createEncoder 16000 1 11 16000 (RefLib.world 0 0)).2)
  ∧ (OpusJni.createEncoder 16000 1 11 16000 (RefLib.world 0 0)).1 ≠ 0.
Proof.
  split; [|by vm_compute].
  exists 4096, (OPUS_SET_COMPLEXITY 11), RefLib.OPUS_BAD_ARG.
  split; [|by vm_compute].
  apply (list_elem_of_lookup_2 _ 4%nat). by vm_compute.
Qed.

(** C3, amended.  [createEncoder] and [createDecoder] return the address
    the codec's create primitive answers: the sentinel 0 exactly when the
    codec yields no object, a non-zero handle whenever it yields one, so
    on every successful creation.  The codec's answers to the
    configuration requests play no part in the value returned. *)
Theorem create_returns_codec_address {S : Type} {L : OpusLib S} :
  (∀ (sampleRateInHz channelConfig complexity bitrate : Z) (w : World S),
     (OpusJni.createEncoder sampleRateInHz channelConfig complexity bitrate
        w).1
     = (opus_encoder_create sampleRateInHz channelConfig
          OPUS_APPLICATION_VOIP (lib w)).1.1
     ∧ ((OpusJni.createEncoder sampleRateInHz channelConfig complexity
           bitrate w).1 = 0
        ↔ (opus_encoder_create sampleRateInHz channelConfig
             OPUS_APPLICATION_VOIP (lib w)).1.1 = 0))
  ∧ (∀ (sampleRateInHz channelConfig : Z) (w : World S),
       (OpusJni.createDecoder sampleRateInHz channelConfig w).1
       = (opus_decoder_create sampleRateInHz channelConfig (lib w)).1.1
       ∧ ((OpusJni.createDecoder sampleRateInHz channelConfig w).1 = 0
          ↔ (opus_decoder_create sampleRateInHz channelConfig (lib w)).1.1
            = 0)).
Proof.
  split.
  - intros sr ch cx br w.
    assert ((OpusJni.createEncoder sr ch cx br w).1
            = (opus_encoder_create sr ch OPUS_APPLICATION_VOIP (lib w)).1.1)
      as Heq; [|by rewrite Heq].
    unfold OpusJni.createEncoder, OpusJni.ctl. run_bridge.
    destruct (opus_encoder_create _ _ _ _) as [[p err] st]. simpl.
    destruct (negb (p =? 0) && (err =? OPUS_OK)); simpl; [|done].
    repeat (destruct (opus_encoder_ctl _ _ _) as [? ?]; simpl). done.
  - intros sr ch w.
    assert ((OpusJni.createDecoder sr ch w).1
            = (opus_decoder_create sr ch (lib w)).1.1)
      as Heq; [|by rewrite Heq].
    unfold OpusJni.createDecoder. run_bridge.
    destruct (opus_decoder_create _ _ _) as [[p err] st]. simpl.
    by destruct (negb (p =? 0) && (err =? OPUS_OK)).
Qed.

(** ** C4: the configuration policy *)

(** C4 does not hold as stated: [createEncoder(16000, 1, 11, 16000)]
    creates the encoder, but the requested complexity 11 is not applied
    to it.  The codec refuses that request, the bridge discards the
    status, and the encoder ends up with the eight other settings
    only. *)
Lemma createEncoder_refused_complexity_not_applied :
  created (opus_encoder_create 16000 1 OPUS_APPLICATION_VOIP
             (lib (RefLib.world 0 0))).1 = true
  ∧ ¬ policy_accepted 4096 11 16000
        (trace (OpusJni.createEncoder 16000 1 11 16000 (RefLib.world 0 0)).2)
  ∧ RefLib.settings
      (lib (OpusJni.createEncoder 16000 1 11 16000 (RefLib.world 0 0)).2)
    = [(4096, OPUS_SET_PACKET_LOSS_PERC 0); (4096, OPUS_SET_INBAND_FEC 0);
       (4096, OPUS_SET_DTX 0); (4096, OPUS_SET_LSB_DEPTH 16);
       (4096, OPUS_SET_SIGNAL 3001); (4096, OPUS_SET_BITRATE 16000);
       (4096, OPUS_SET_VBR_CONSTRAINT 1); (4096, OPUS_SET_VBR 0)].
Proof.
  split; [by vm_compute|]. split; [|by vm_compute].
  unfold policy_accepted. vm_compute. discriminate.
Qed.

(** C4, amended.  Whenever the codec creates the encoder (a non-null
    object with status [OPUS_OK]), [createEncoder] sends that encoder
    exactly the nine requests of the fixed policy, in this order: VBR off
    (constant bit-rate), VBR constraint on, the requested bitrate, the
    requested complexity, the voice signal hint, 16-bit depth, DTX off,
    in-band FEC off, expected packet loss 0; each is answered by the
    codec on the state the previous one left, and the codec library ends
    in the state the ninth leaves.  The statuses are discarded: a setting
    is in force exactly as far as the codec accepts its request. *)
Theorem createEncoder_applies_policy {S : Type} {L : OpusLib S}
    (sampleRateInHz channelConfig complexity bitrate : Z) (w : World S)
    (pOpusEnc : Z) (st' : S) :
  opus_encoder_create sampleRateInHz channelConfig OPUS_APPLICATION_VOIP
    (lib w) = ((pOpusEnc, OPUS_OK), st') →
  pOpusEnc ≠ 0 →
  ∃ evs,
    trace (OpusJni.createEncoder sampleRateInHz channelConfig complexity
             bitrate w).2 = trace w ++ evs
    ∧ requests_to pOpusEnc evs = encoder_policy complexity bitrate
    ∧ answers_to pOpusEnc evs
      = (run_requests pOpusEnc (encoder_policy complexity bitrate) st').1
    ∧ lib (OpusJni.createEncoder sampleRateInHz channelConfig complexity
             bitrate w).2
      = (run_requests pOpusEnc (encoder_policy complexity bitrate) st').2.
Proof.
  intros Hcreate Hp. unfold OpusJni.createEncoder, OpusJni.ctl. run_bridge.
  rewrite Hcreate. simpl.
  apply Z.eqb_neq in Hp. rewrite Hp, Z.eqb_refl. simpl.
  unfold encoder_policy, run_requests.
  repeat (destruct (opus_encoder_ctl _ _ _) as [? ?]; simpl).
  eexists. split; [tidy_trace; reflexivity|].
  unfold requests_to, answers_to. simpl. rewrite !decide_True by done.
  by repeat split.
Qed.

Lemma createEncoder_policy_witness :
  ∃ evs,
    trace (OpusJni.createEncoder 16000 1 5 16000 (RefLib.world 0 0)).2
    = trace (RefLib.world 0 0) ++ evs
    ∧ requests_to 4096 evs = encoder_policy 5 16000
    ∧ answers_to 4096 evs
      = [(OPUS_SET_VBR 0, 0); (OPUS_SET_VBR_CONSTRAINT 1, 0);
         (OPUS_SET_BITRATE 16000, 0); (OPUS_SET_COMPLEXITY 5, 0);
         (OPUS_SET_SIGNAL 3001, 0); (OPUS_SET_LSB_DEPTH 16, 0);
         (OPUS_SET_DTX 0, 0); (OPUS_SET_INBAND_FEC 0, 0);
         (OPUS_SET_PACKET_LOSS_PERC 0, 0)]
    ∧ lib (OpusJni.createEncoder 16000 1 5 16000 (RefLib.world 0 0)).2
      = RefLib.mkSt 8192 [4096]
          [(4096, OPUS_SET_PACKET_LOSS_PERC 0); (4096, OPUS_SET_INBAND_FEC 0);
           (4096, OPUS_SET_DTX 0); (4096, OPUS_SET_LSB_DEPTH 16);
           (4096, OPUS_SET_SIGNAL 3001); (4096, OPUS_SET_COMPLEXITY 5);
           (4096, OPUS_SET_BITRATE 16000); (4096, OPUS_SET_VBR_CONSTRAINT 1);
           (4096, OPUS_SET_VBR 0)].
Proof.
  assert (opus_encoder_create 16000 1 OPUS_APPLICATION_VOIP
            (lib (RefLib.world 0 0))
          = ((4096, OPUS_OK), RefLib.mkSt 8192 [4096] [])) as Hcreate
    by (vm_compute; reflexivity).
  assert (4096 ≠ 0) as Hp by lia.
  exact (createEncoder_applies_policy 16000 1 5 16000 (RefLib.world 0 0)
           4096 (RefLib.mkSt 8192 [4096] []) Hcreate Hp).
Defined.

(** ** C5: the interface-shape variant *)

(** C5.  In the interface-shape variant, on every input and in every
    world, [createEncoder] and [createDecoder] return the sentinel 0,
    [encode] and [decode] return -1, and [getEncoderSize] and
    [getDecoderSize] return the placeholder 0. *)
Theorem stub_returns_sentinels {S : Type} (w : World S) :
  (∀ sampleRateInHz channelConfig complexity bitrate : Z,
     (OpusJniStub.createEncoder sampleRateInHz channelConfig complexity
        bitrate w).1 = 0)
  ∧ (∀ sampleRateInHz channelConfig : Z,
       (OpusJniStub.createDecoder sampleRateInHz channelConfig w).1 = 0)
  ∧ (∀ (pOpusEnc : Z) (samples : jarray) (frameSize : Z) (bytes : jarray),
       (OpusJniStub.encode pOpusEnc samples frameSize bytes w).1 = -1)
  ∧ (∀ (pOpusDec : Z) (bytes : jarray) (bytesLength : Z) (samples : jarray)
       (frameSize : Z),
       (OpusJniStub.decode pOpusDec bytes bytesLength samples frameSize w).1
       = -1)
  ∧ (∀ channels : Z, (OpusJniStub.getEncoderSize channels w).1 = 0)
  ∧ (∀ channels : Z, (OpusJniStub.getDecoderSize channels w).1 = 0).
Proof. repeat split. Qed.

(** ** C6: destroying the sentinel *)

(** C6.  On the handle 0, [destroyEncoder] and [destroyDecoder] of the
    working variant return with the world exactly as it was: nothing is
    released, nothing is called, nothing is logged.  In the
    interface-shape variant they write their one diagnostic line and
    leave the codec state, the arrays and the leases as they were.  Both
    are total functions. *)
Theorem destroy_sentinel_is_noop {S : Type} {L : OpusLib S} (w : World S) :
  OpusJni.destroyEncoder 0 w = (tt, w)
  ∧ OpusJni.destroyDecoder 0 w = (tt, w)
  ∧ OpusJniStub.destroyEncoder 0 w
    = (tt, logged w [LogI "🚧 destroyEncoder called - stub implementation" []])
  ∧ OpusJniStub.destroyDecoder 0 w
    = (tt, logged w [LogI "🚧 destroyDecoder called - stub implementation" []]).
Proof. repeat split. Qed.

(** ** C8: codec errors *)

(** C8.  When the bridge-level preconditions of [encode] or [decode]
    hold and the codec answers a negative error code, the bridge returns
    that very code. *)
Theorem codec_error_returned_unchanged {S : Type} {L : OpusLib S} :
  (∀ (pOpusEnc : Z) (s b : ref) (frameSize : Z) (w : World S) (nRet : Z),
     pOpusEnc ≠ 0 →
     frameSize ≤ array_length w s →
     0 < array_length w b →
     (opus_encode pOpusEnc (elems w s) frameSize (elems w b)
        (array_length w b) (lib w)).1.1 = nRet →
     nRet < 0 →
     (OpusJni.encode pOpusEnc (Some s) frameSize (Some b) w).1 = nRet)
  ∧ (∀ (pOpusDec : Z) (b : ref) (bytesLength : Z) (s : ref) (frameSize : Z)
       (w : World S) (nRet : Z),
       pOpusDec ≠ 0 →
       0 < bytesLength →
       frameSize ≤ array_length w s →
       (opus_decode pOpusDec (elems w b) bytesLength (elems w s) frameSize 0
          (lib w)).1.1 = nRet →
       nRet < 0 →
       (OpusJni.decode pOpusDec (Some b) bytesLength (Some s) frameSize w).1
       = nRet).
Proof.
  split.
  - intros h s b fs w n Hh Hs Hb Hc _.
    destruct (opus_encode h (elems w s) fs (elems w b) (array_length w b)
                (lib w)) as [[n' out] st'] eqn:Hrun.
    simpl in Hc. subst n'. by rewrite (encode_codec_run h s b fs w n out st').
  - intros h b len s fs w n Hh Hlen Hs Hc _.
    destruct (opus_decode h (elems w b) len (elems w s) fs 0 (lib w))
      as [[n' out] st'] eqn:Hrun.
    simpl in Hc. subst n'.
    by rewrite (decode_codec_run h b len s fs w n out st').
Qed.

Lemma codec_error_witness :
  (OpusJni.encode 4096 (Some 1%positive) 4 (Some 2%positive)
     (RefLib.world 4 2)).1 = RefLib.OPUS_BUFFER_TOO_SMALL
  ∧ (OpusJni.decode 4096 (Some 2%positive) 5 (Some 1%positive) 4
       (RefLib.world 4 2)).1 = RefLib.OPUS_INVALID_PACKET.
Proof.
  destruct (@codec_error_returned_unchanged RefLib.St RefLib.opus)
    as [Henc Hdec].
  split.
  - apply Henc; vm_compute; (reflexivity || discriminate).
  - apply Hdec; vm_compute; (reflexivity || discriminate).
Defined.

(** ** C9: the version string *)



(** ** C10: the announced byte length *)

(** C10.  [decode] checks [bytesLength > 0] and that the sample array
    holds at least [frameSize] samples, and nothing else about sizes:
    with a live handle and two arrays, once those two checks pass the
    codec is called with [bytesLength] as given, whatever the length of
    the byte array, so also when [bytesLength] exceeds it (the witness
    below announces 5 bytes of a 2-byte array); the value the bridge
    returns is the codec's. *)
Theorem decode_forwards_bytesLength_unchecked {S : Type} {L : OpusLib S}
    (pOpusDec : Z) (b : ref) (bytesLength : Z) (s : ref) (frameSize : Z)
    (w : World S) :
  pOpusDec ≠ 0 →
  0 < bytesLength →
  frameSize ≤ array_length w s →
  EvDecode pOpusDec (elems w b) bytesLength (elems w s) frameSize 0
    ∈ trace (OpusJni.decode pOpusDec (Some b) bytesLength (Some s) frameSize
               w).2
  ∧ (OpusJni.decode pOpusDec (Some b) bytesLength (Some s) frameSize w).1
    = (opus_decode pOpusDec (elems w b) bytesLength (elems w s) frameSize 0
         (lib w)).1.1.
Proof.
  intros Hh Hlen Hs.
  destruct (opus_decode pOpusDec (elems w b) bytesLength (elems w s)
              frameSize 0 (lib w)) as [[n out] st'] eqn:Hrun.
  rewrite (decode_codec_run pOpusDec b bytesLength s frameSize w n out st')
    by done.
  split; [|done]. simpl. set_solver.
Qed.

Lemma decode_overlong_witness :
  EvDecode 4096 [0; 0] 5 [0; 0; 0; 0] 4 0
    ∈ trace (OpusJni.decode 4096 (Some 2%positive) 5 (Some 1%positive) 4
               (RefLib.world 4 2)).2
  ∧ (OpusJni.decode 4096 (Some 2%positive) 5 (Some 1%positive) 4
       (RefLib.world 4 2)).1
    = RefLib.OPUS_INVALID_PACKET.
Proof.
  apply (@decode_forwards_bytesLength_unchecked RefLib.St RefLib.opus
           4096 2%positive 5 1%positive 4 (RefLib.world 4 2));
    vm_compute; (reflexivity || discriminate).
Defined.

(** * Further properties of the bridge *)

(** ** Every run of [encode] and [decode] is one of three *)

Lemma overlay_full (buf old : list Z) :
  length buf = length old → overlay buf old = buf.
Proof.
  intros Hlen. unfold overlay.
  by rewrite <- Hlen, firstn_all, Hlen, drop_all, app_nil_r.
Qed.

Section Cases.
Context {S : Type} {L : OpusLib S}.

Lemma encode_run_cases (pOpusEnc : Z) (samples : jarray) (frameSize : Z)
    (bytes : jarray) (w : World S) :
  ((pOpusEnc = 0 ∨ samples = None ∨ bytes = None)
   ∧ OpusJni.encode pOpusEnc samples frameSize bytes w
     = (-1, logged w [LogE "❌ encode: 无效参数" []]))
  ∨ (∃ s b, samples = Some s ∧ bytes = Some b ∧ pOpusEnc ≠ 0
       ∧ ((array_length w s < frameSize ∨ array_length w b ≤ 0)
          ∧ OpusJni.encode pOpusEnc samples frameSize bytes w
            = (-1, logged w
                [EvGetShortArrayElements s; EvGetArrayLength s;
                 EvGetByteArrayElements b; EvGetArrayLength b;
                 LogE
                   "❌ encode: 数据大小不匹配 samples=%d, frameSize=%d, bytes=%d"
                   [array_length w s; frameSize; array_length w b];
                 EvReleaseShortArrayElements s 0;
                 EvReleaseByteArrayElements b 0])
          ∨ ∃ n out st',
              frameSize ≤ array_length w s ∧ 0 < array_length w b
              ∧ opus_encode pOpusEnc (elems w s) frameSize (elems w b)
                  (array_length w b) (lib w) = ((n, out), st')
              ∧ OpusJni.encode pOpusEnc samples frameSize bytes w
                = (n, mkWorld st' (alter (overlay out) b (arrays w))
                        (leases w)
                        (trace w ++
                         [EvGetShortArrayElements s; EvGetArrayLength s;
                          EvGetByteArrayElements b; EvGetArrayLength b;
                          EvEncode pOpusEnc (elems w s) frameSize
                            (elems w b) (array_length w b)] ++
                         codec_failure_log "❌ opus_encode失败: %d" n ++
                         [EvReleaseShortArrayElements s 0;
                          EvReleaseByteArrayElements b 0])))).
Proof.
  destruct (decide (pOpusEnc = 0 ∨ samples = None ∨ bytes = None)) as [Hn|Hn].
  { left. split; [done|]. by apply encode_null_run. }
  right. destruct samples as [s|], bytes as [b|]; try (exfalso; naive_solver).
  assert (pOpusEnc ≠ 0) as Hh by naive_solver.
  exists s, b. do 3 (split; [done|]).
  destruct (decide (array_length w s < frameSize ∨ array_length w b ≤ 0))
    as [Hm|Hm].
  { left. split; [done|]. by apply encode_mismatch_run. }
  right.
  destruct (opus_encode pOpusEnc (elems w s) frameSize (elems w b)
              (array_length w b) (lib w)) as [[n out] st'] eqn:Hc.
  exists n, out, st'. split; [lia|]. split; [lia|]. split; [done|].
  apply encode_codec_run; (done || lia).
Qed.

Lemma decode_run_cases (pOpusDec : Z) (bytes : jarray) (bytesLength : Z)
    (samples : jarray) (frameSize : Z) (w : World S) :
  ((pOpusDec = 0 ∨ samples = None ∨ bytes = None)
   ∧ OpusJni.decode pOpusDec bytes bytesLength samples frameSize w
     = (-1, logged w [LogE "❌ decode: 无效参数" []]))
  ∨ (∃ s b, samples = Some s ∧ bytes = Some b ∧ pOpusDec ≠ 0
       ∧ ((bytesLength ≤ 0 ∨ array_length w s < frameSize)
          ∧ OpusJni.decode pOpusDec bytes bytesLength samples frameSize w
            = (-1, logged w
                [EvGetShortArrayElements s; EvGetByteArrayElements b;
                 EvGetArrayLength s;
                 LogE
                   "❌ decode: 数据大小不匹配 bytesLength=%d, samples=%d, frameSize=%d"
                   [bytesLength; array_length w s; frameSize];
                 EvReleaseShortArrayElements s 0;
                 EvReleaseByteArrayElements b 0])
          ∨ ∃ n out st',
              0 < bytesLength ∧ frameSize ≤ array_length w s
              ∧ opus_decode pOpusDec (elems w b) bytesLength (elems w s)
                  frameSize 0 (lib w) = ((n, out), st')
              ∧ OpusJni.decode pOpusDec bytes bytesLength samples frameSize w
                = (n, mkWorld st'
                        (alter (overlay (elems w b)) b
                           (alter (overlay out) s (arrays w)))
                        (leases w)
                        (trace w ++
                         [EvGetShortArrayElements s;
                          EvGetByteArrayElements b; EvGetArrayLength s;
                          EvDecode pOpusDec (elems w b) bytesLength
                            (elems w s) frameSize 0] ++
                         codec_failure_log "❌ opus_decode失败: %d" n ++
                         [EvReleaseShortArrayElements s 0;
                          EvReleaseByteArrayElements b 0])))).
Proof.
  destruct (decide (pOpusDec = 0 ∨ samples = None ∨ bytes = None)) as [Hn|Hn].
  { left. split; [done|]. by apply decode_null_run. }
  right. destruct samples as [s|], bytes as [b|]; try (exfalso; naive_solver).
  assert (pOpusDec ≠ 0) as Hh by naive_solver.
  exists s, b. do 3 (split; [done|]).
  destruct (decide (bytesLength ≤ 0 ∨ array_length w s < frameSize))
    as [Hm|Hm].
  { left. split; [done|]. by apply decode_mismatch_run. }
  right.
  destruct (opus_decode pOpusDec (elems w b) bytesLength (elems w s)
              frameSize 0 (lib w)) as [[n out] st'] eqn:Hc.
  exists n, out, st'. split; [lia|]. split; [lia|]. split; [done|].
  apply decode_codec_run; (done || lia).
Qed.

End Cases.

Ltac codec_run_events n :=
  unfold appended, codec_calls, codec_failure_log; simpl;
  eexists; split; [reflexivity|]; destruct (n <? 0); simpl.

(** ** X1: the sizes passed to the codec *)

(** X1.  Whatever the arguments, if [encode] calls the codec it passes a
    non-null encoder, a sample buffer holding at least [frameSize]
    samples, and as capacity exactly the (positive) length of the output
    buffer; if [decode] calls the codec it passes a non-null decoder, a
    positive [bytesLength], a sample buffer holding at least [frameSize]
    samples, and FEC off. *)
Theorem codec_is_called_with_backed_sizes {S : Type} {L : OpusLib S} :
  (∀ (pOpusEnc : Z) (samples : jarray) (frameSize : Z) (bytes : jarray)
     (w : World S),
     ∃ evs,
       appended w (OpusJni.encode pOpusEnc samples frameSize bytes w) evs
       ∧ forallb well_sized_call evs = true)
  ∧ (∀ (pOpusDec : Z) (bytes : jarray) (bytesLength : Z) (samples : jarray)
       (frameSize : Z) (w : World S),
       ∃ evs,
         appended w
           (OpusJni.decode pOpusDec bytes bytesLength samples frameSize w) evs
         ∧ forallb well_sized_call evs = true).
Proof.
  split.
  - intros h samples fs bytes w.
    destruct (encode_run_cases h samples fs bytes w)
      as [[_ ->]|(s & b & -> & -> & Hh & [[_ ->]|(n & out & st' & Hs & Hb & _ & ->)])];
      [by eexists | by eexists |].
    assert (well_sized_call
              (EvEncode h (elems w s) fs (elems w b) (array_length w b))
            = true) as Hok.
    { unfold array_length in *. simpl.
      rewrite Z.eqb_refl, !andb_true_r, !andb_true_iff, negb_true_iff.
      by rewrite Z.eqb_neq, Z.leb_le, Z.ltb_lt. }
    simpl in Hok. codec_run_events n; by rewrite Hok.
  - intros h bytes len samples fs w.
    destruct (decode_run_cases h bytes len samples fs w)
      as [[_ ->]|(s & b & -> & -> & Hh & [[_ ->]|(n & out & st' & Hlen & Hs & _ & ->)])];
      [by eexists | by eexists |].
    assert (well_sized_call (EvDecode h (elems w b) len (elems w s) fs 0)
            = true) as Hok.
    { unfold array_length in *. simpl.
      rewrite !andb_true_r, !andb_true_iff, negb_true_iff.
      by rewrite Z.eqb_neq, Z.leb_le, Z.ltb_lt. }
    simpl in Hok. codec_run_events n; by rewrite Hok.
Qed.

(** ** X2: one codec call at most *)

(** X2.  A call of [encode] or [decode] enters the codec at most once,
    and a return value other than [-1] always comes out of exactly one
    codec call: the bridge never retries and never answers for the
    codec. *)
Theorem encode_decode_call_codec_at_most_once {S : Type} {L : OpusLib S} :
  (∀ (pOpusEnc : Z) (samples : jarray) (frameSize : Z) (bytes : jarray)
     (w : World S),
     ∃ evs,
       appended w (OpusJni.encode pOpusEnc samples frameSize bytes w) evs
       ∧ (codec_calls evs ≤ 1)%nat
       ∧ ((OpusJni.encode pOpusEnc samples frameSize bytes w).1 ≠ -1
          → codec_calls evs = 1%nat))
  ∧ (∀ (pOpusDec : Z) (bytes : jarray) (bytesLength : Z) (samples : jarray)
       (frameSize : Z) (w : World S),
       ∃ evs,
         appended w
           (OpusJni.decode pOpusDec bytes bytesLength samples frameSize w) evs
         ∧ (codec_calls evs ≤ 1)%nat
         ∧ ((OpusJni.decode pOpusDec bytes bytesLength samples frameSize w).1
            ≠ -1
            → codec_calls evs = 1%nat)).
Proof.
  split.
  - intros h samples fs bytes w.
    destruct (encode_run_cases h samples fs bytes w)
      as [[_ ->]|(s & b & -> & -> & Hh & [[_ ->]|(n & out & st' & _ & _ & _ & ->)])].
    + eexists. split; [reflexivity|].
      split; [unfold codec_calls; simpl; lia | simpl; congruence].
    + eexists. split; [reflexivity|].
      split; [unfold codec_calls; simpl; lia | simpl; congruence].
    + codec_run_events n; split; (done || lia).
  - intros h bytes len samples fs w.
    destruct (decode_run_cases h bytes len samples fs w)
      as [[_ ->]|(s & b & -> & -> & Hh & [[_ ->]|(n & out & st' & _ & _ & _ & ->)])].
    + eexists. split; [reflexivity|].
      split; [unfold codec_calls; simpl; lia | simpl; congruence].
    + eexists. split; [reflexivity|].
      split; [unfold codec_calls; simpl; lia | simpl; congruence].
    + codec_run_events n; split; (done || lia).
Qed.

(** ** X4: which array a call may write *)

(** X4.  As long as the codec stays within the output buffer it is given,
    a call of [encode] that reaches the codec leaves every array object
    other than its output array [bytes] as it was, the sample array
    included, and a call of [decode] that reaches the codec leaves every
    array object other than its output array [samples] as it was, the
    byte array included. *)
Theorem encode_decode_write_only_their_output {S : Type} {L : OpusLib S} :
  (∀ (pOpusEnc : Z) (s b : ref) (frameSize : Z) (w : World S) (a : ref),
     pOpusEnc ≠ 0 →
     frameSize ≤ array_length w s →
     0 < array_length w b →
     encode_in_bounds pOpusEnc (elems w s) frameSize (elems w b) (lib w) →
     a ≠ b →
     arrays (OpusJni.encode pOpusEnc (Some s) frameSize (Some b) w).2 !! a
     = arrays w !! a)
  ∧ (∀ (pOpusDec : Z) (b : ref) (bytesLength : Z) (s : ref) (frameSize : Z)
       (w : World S) (a : ref),
       pOpusDec ≠ 0 →
       0 < bytesLength →
       frameSize ≤ array_length w s →
       decode_in_bounds pOpusDec (elems w b) bytesLength (elems w s)
         frameSize (lib w) →
       a ≠ s →
       arrays
         (OpusJni.decode pOpusDec (Some b) bytesLength (Some s) frameSize
            w).2 !! a
       = arrays w !! a).
Proof.
  split.
  - intros h s b fs w a Hh Hs Hb _ Ha.
    destruct (opus_encode h (elems w s) fs (elems w b) (array_length w b)
                (lib w)) as [[n out] st'] eqn:Hc.
    rewrite (encode_codec_run h s b fs w n out st') by done.
    simpl. by apply lookup_alter_ne.
  - intros h b len s fs w a Hh Hlen Hs _ Ha.
    destruct (opus_decode h (elems w b) len (elems w s) fs 0 (lib w))
      as [[n out] st'] eqn:Hc.
    rewrite (decode_codec_run h b len s fs w n out st') by done.
    simpl. rewrite lookup_alter.
    case_decide as Hb; [subst a|by apply lookup_alter_ne].
    rewrite lookup_alter_ne by done. unfold elems.
    destruct (arrays w !! b) as [old|]; [|done]. simpl. by rewrite overlay_same.
Qed.

Lemma write_only_output_witness :
  arrays (OpusJni.encode 4096 (Some 1%positive) 4 (Some 2%positive)
            (RefLib.world 4 8)).2 !! 1%positive
  = arrays (RefLib.world 4 8) !! 1%positive
  ∧ arrays (OpusJni.decode 4096 (Some 2%positive) 2 (Some 1%positive) 4
              (RefLib.world 6 2)).2 !! 2%positive
    = arrays (RefLib.world 6 2) !! 2%positive.
Proof.
  destruct (@encode_decode_write_only_their_output RefLib.St RefLib.opus)
    as [Henc Hdec].
  split.
  - apply Henc; vm_compute; (reflexivity || discriminate).
  - apply Hdec; vm_compute; (reflexivity || discriminate).
Defined.

(** ** X5: where the codec's output ends up *)

(** X5.  When the checks pass and the codec hands back an output buffer
    of the length it was given, the output array holds after the call
    exactly what the codec wrote, and the codec library is in the state
    the codec call left it in: for [encode] the byte array, for [decode]
    the sample array (the two arrays being distinct objects). *)
Theorem codec_output_reaches_the_array {S : Type} {L : OpusLib S} :
  (∀ (pOpusEnc : Z) (s b : ref) (frameSize : Z) (w : World S) (nRet : Z)
     (out : list Z) (st' : S),
     pOpusEnc ≠ 0 →
     frameSize ≤ array_length w s →
     0 < array_length w b →
     opus_encode pOpusEnc (elems w s) frameSize (elems w b)
       (array_length w b) (lib w) = ((nRet, out), st') →
     length out = length (elems w b) →
     elems (OpusJni.encode pOpusEnc (Some s) frameSize (Some b) w).2 b = out
     ∧ lib (OpusJni.encode pOpusEnc (Some s) frameSize (Some b) w).2 = st')
  ∧ (∀ (pOpusDec : Z) (b : ref) (bytesLength : Z) (s : ref) (frameSize : Z)
       (w : World S) (nRet : Z) (out : list Z) (st' : S),
       pOpusDec ≠ 0 →
       0 < bytesLength →
       frameSize ≤ array_length w s →
       opus_decode pOpusDec (elems w b) bytesLength (elems w s) frameSize 0
         (lib w) = ((nRet, out), st') →
       length out = length (elems w s) →
       s ≠ b →
       elems
         (OpusJni.decode pOpusDec (Some b) bytesLength (Some s) frameSize w).2
         s = out
       ∧ lib
           (OpusJni.decode pOpusDec (Some b) bytesLength (Some s) frameSize
              w).2 = st').
Proof.
  split.
  - intros h s b fs w n out st' Hh Hs Hb Hc Hlen.
    rewrite (encode_codec_run h s b fs w n out st') by done.
    split; [|done]. unfold elems in *. simpl. rewrite lookup_alter_eq.
    destruct (arrays w !! b) as [old|]; simpl in *.
    + by apply overlay_full.
    + by destruct out.
  - intros h b len s fs w n out st' Hh Hlen Hs Hc Hout Hsb.
    rewrite (decode_codec_run h b len s fs w n out st') by done.
    split; [|done]. unfold elems in *. simpl.
    rewrite lookup_alter_ne, lookup_alter_eq by done.
    destruct (arrays w !! s) as [old|]; simpl in *.
    + by apply overlay_full.
    + by destruct out.
Qed.

Lemma codec_output_witness :
  (elems (OpusJni.encode 4096 (Some 1%positive) 4 (Some 2%positive)
            (RefLib.world 4 8)).2 2%positive = [8; 0; 0; 0; 0; 0; 0; 0]
   ∧ lib (OpusJni.encode 4096 (Some 1%positive) 4 (Some 2%positive)
            (RefLib.world 4 8)).2 = RefLib.init)
  ∧ (elems (OpusJni.decode 4096 (Some 2%positive) 2 (Some 1%positive) 4
              (RefLib.world 6 2)).2 1%positive = [0; 0; 0; 0; 0; 0]
     ∧ lib (OpusJni.decode 4096 (Some 2%positive) 2 (Some 1%positive) 4
              (RefLib.world 6 2)).2 = RefLib.init).
Proof.
  destruct (@codec_output_reaches_the_array RefLib.St RefLib.opus)
    as [Henc Hdec].
  split.
  - apply (Henc 4096 1%positive 2%positive 4 (RefLib.world 4 8) 3);
      vm_compute; (reflexivity || discriminate).
  - apply (Hdec 4096 2%positive 2 1%positive 4 (RefLib.world 6 2) 4);
      vm_compute; (reflexivity || discriminate).
Defined.

(** ** X6: a frame size that is not positive *)

(** X6.  The bridge compares [frameSize] with the sample array's length
    only from above: a zero or negative [frameSize] passes the check and
    is handed to the codec as it is, by [encode] (given a non-empty
    output array) and by [decode] (given a positive [bytesLength]); the
    value returned is the codec's. *)
Theorem nonpositive_frameSize_reaches_codec {S : Type} {L : OpusLib S} :
  (∀ (pOpusEnc : Z) (s b : ref) (frameSize : Z) (w : World S),
     pOpusEnc ≠ 0 →
     frameSize ≤ 0 →
     0 < array_length w b →
     EvEncode pOpusEnc (elems w s) frameSize (elems w b) (array_length w b)
       ∈ trace (OpusJni.encode pOpusEnc (Some s) frameSize (Some b) w).2
     ∧ (OpusJni.encode pOpusEnc (Some s) frameSize (Some b) w).1
       = (opus_encode pOpusEnc (elems w s) frameSize (elems w b)
            (array_length w b) (lib w)).1.1)
  ∧ (∀ (pOpusDec : Z) (b : ref) (bytesLength : Z) (s : ref) (frameSize : Z)
       (w : World S),
       pOpusDec ≠ 0 →
       0 < bytesLength →
       frameSize ≤ 0 →
       EvDecode pOpusDec (elems w b) bytesLength (elems w s) frameSize 0
         ∈ trace
             (OpusJni.decode pOpusDec (Some b) bytesLength (Some s) frameSize
                w).2
       ∧ (OpusJni.decode pOpusDec (Some b) bytesLength (Some s) frameSize
            w).1
         = (opus_decode pOpusDec (elems w b) bytesLength (elems w s)
              frameSize 0 (lib w)).1.1).
Proof.
  split.
  - intros h s b fs w Hh Hfs Hb.
    destruct (opus_encode h (elems w s) fs (elems w b) (array_length w b)
                (lib w)) as [[n out] st'] eqn:Hc.
    rewrite (encode_codec_run h s b fs w n out st')
      by (done || unfold array_length; lia).
    split; [|done]. simpl. set_solver.
  - intros h b len s fs w Hh Hlen Hfs.
    destruct (opus_decode h (elems w b) len (elems w s) fs 0 (lib w))
      as [[n out] st'] eqn:Hc.
    rewrite (decode_codec_run h b len s fs w n out st')
      by (done || unfold array_length; lia).
    split; [|done]. simpl. set_solver.
Qed.

Lemma nonpositive_frameSize_witness :
  (EvEncode 4096 [0; 0; 0; 0] (-5) [0; 0; 0; 0; 0; 0; 0; 0] 8
     ∈ trace (OpusJni.encode 4096 (Some 1%positive) (-5) (Some 2%positive)
                (RefLib.world 4 8)).2
   ∧ (OpusJni.encode 4096 (Some 1%positive) (-5) (Some 2%positive)
        (RefLib.world 4 8)).1 = RefLib.OPUS_BAD_ARG)
  ∧ (EvDecode 4096 [0; 0] 2 [] 0 0
       ∈ trace (OpusJni.decode 4096 (Some 2%positive) 2 (Some 1%positive) 0
                  (RefLib.world 0 2)).2
     ∧ (OpusJni.decode 4096 (Some 2%positive) 2 (Some 1%positive) 0
          (RefLib.world 0 2)).1 = RefLib.OPUS_BAD_ARG).
Proof.
  destruct (@nonpositive_frameSize_reaches_codec RefLib.St RefLib.opus)
    as [Henc Hdec].
  split.
  - apply (Henc 4096 1%positive 2%positive (-5) (RefLib.world 4 8));
      vm_compute; (reflexivity || discriminate).
  - apply (Hdec 4096 2%positive 2 1%positive 0 (RefLib.world 0 2));
      vm_compute; (reflexivity || discriminate).
Defined.

(** ** X7: error lines and negative results *)

(** X7.  A call of [encode] or [decode] writes an error-level log line
    exactly when it returns a negative value: one line if the result is
    negative, whether the bridge or the codec refused, none if it is
    not. *)
Theorem error_logged_iff_negative_result {S : Type} {L : OpusLib S} :
  (∀ (pOpusEnc : Z) (samples : jarray) (frameSize : Z) (bytes : jarray)
     (w : World S),
     ∃ evs,
       appended w (OpusJni.encode pOpusEnc samples frameSize bytes w) evs
       ∧ length (error_lines evs)
         = if (OpusJni.encode pOpusEnc samples frameSize bytes w).1 <? 0
           then 1%nat else 0%nat)
  ∧ (∀ (pOpusDec : Z) (bytes : jarray) (bytesLength : Z) (samples : jarray)
       (frameSize : Z) (w : World S),
       ∃ evs,
         appended w
           (OpusJni.decode pOpusDec bytes bytesLength samples frameSize w) evs
         ∧ length (error_lines evs)
           = if (OpusJni.decode pOpusDec bytes bytesLength samples frameSize
                   w).1 <? 0
             then 1%nat else 0%nat).
Proof.
  split.
  - intros h samples fs bytes w.
    destruct (encode_run_cases h samples fs bytes w)
      as [[_ ->]|(s & b & -> & -> & Hh & [[_ ->]|(n & out & st' & _ & _ & _ & ->)])];
      [by eexists | by eexists |].
    unfold appended, codec_failure_log. simpl.
    eexists. split; [reflexivity|]. by destruct (n <? 0).
  - intros h bytes len samples fs w.
    destruct (decode_run_cases h bytes len samples fs w)
      as [[_ ->]|(s & b & -> & -> & Hh & [[_ ->]|(n & out & st' & _ & _ & _ & ->)])];
      [by eexists | by eexists |].
    unfold appended, codec_failure_log. simpl.
    eexists. split; [reflexivity|]. by destruct (n <? 0).
Qed.

(** ** The life cycle of a handle *)

Section Lifecycle.
Context {S : Type} {L : OpusLib S}.

Lemma destroyEncoder_run (pOpusEnc : Z) (w : World S) :
  pOpusEnc ≠ 0 →
  OpusJni.destroyEncoder pOpusEnc w
  = (tt, mkWorld (opus_encoder_destroy pOpusEnc (lib w)) (arrays w)
           (leases w)
           (trace w ++ [EvEncoderDestroy pOpusEnc;
                        LogI "🧹 Opus编码器已销毁" []])).
Proof.
  intros Hp. unfold OpusJni.destroyEncoder. apply Z.eqb_neq in Hp.
  rewrite Hp. run_bridge. tidy_trace. reflexivity.
Qed.

Lemma destroyDecoder_run (pOpusDec : Z) (w : World S) :
  pOpusDec ≠ 0 →
  OpusJni.destroyDecoder pOpusDec w
  = (tt, mkWorld (opus_decoder_destroy pOpusDec (lib w)) (arrays w)
           (leases w)
           (trace w ++ [EvDecoderDestroy pOpusDec;
                        LogI "🧹 Opus解码器已销毁" []])).
Proof.
  intros Hp. unfold OpusJni.destroyDecoder. apply Z.eqb_neq in Hp.
  rewrite Hp. run_bridge. tidy_trace. reflexivity.
Qed.

Lemma createEncoder_run (sampleRateInHz channelConfig complexity bitrate : Z)
    (w : World S) :
  ∃ evs,
    OpusJni.createEncoder sampleRateInHz channelConfig complexity bitrate w
    = ((opus_encoder_create sampleRateInHz channelConfig
          OPUS_APPLICATION_VOIP (lib w)).1.1,
       mkWorld
         (lib (OpusJni.createEncoder sampleRateInHz channelConfig complexity
                 bitrate w).2)
         (arrays w) (leases w) (trace w ++ evs))
    ∧ codec_calls evs
      = (if created (opus_encoder_create sampleRateInHz channelConfig
                       OPUS_APPLICATION_VOIP (lib w)).1
         then 10%nat else 1%nat)
    ∧ (created (opus_encoder_create sampleRateInHz channelConfig
                  OPUS_APPLICATION_VOIP (lib w)).1 = false →
       lib (OpusJni.createEncoder sampleRateInHz channelConfig complexity
              bitrate w).2
       = (opus_encoder_create sampleRateInHz channelConfig
            OPUS_APPLICATION_VOIP (lib w)).2).
Proof.
  unfold OpusJni.createEncoder, OpusJni.ctl, created, codec_calls. run_bridge.
  destruct (opus_encoder_create _ _ _ _) as [[p err] st]. simpl.
  destruct (negb (p =? 0) && (err =? OPUS_OK)); simpl.
  - repeat (destruct (opus_encoder_ctl _ _ _) as [? ?]; simpl).
    eexists. split; [tidy_trace; reflexivity|]. by split.
  - eexists. split; [tidy_trace; reflexivity|]. by split.
Qed.

Lemma createDecoder_run (sampleRateInHz channelConfig : Z) (w : World S) :
  ∃ evs,
    OpusJni.createDecoder sampleRateInHz channelConfig w
    = ((opus_decoder_create sampleRateInHz channelConfig (lib w)).1.1,
       mkWorld (opus_decoder_create sampleRateInHz channelConfig (lib w)).2
         (arrays w) (leases w) (trace w ++ evs))
    ∧ codec_calls evs = 1%nat.
Proof.
  unfold OpusJni.createDecoder, codec_calls. run_bridge.
  destruct (opus_decoder_create _ _ _) as [[p err] st]. simpl.
  destruct (negb (p =? 0) && (err =? OPUS_OK)); simpl;
    (eexists; split; [tidy_trace; reflexivity|done]).
Qed.

Lemma createEncoder_failure_run
    (sampleRateInHz channelConfig complexity bitrate : Z) (w : World S)
    (p err : Z) (st' : S) :
  opus_encoder_create sampleRateInHz channelConfig OPUS_APPLICATION_VOIP
    (lib w) = ((p, err), st') →
  created (p, err) = false →
  OpusJni.createEncoder sampleRateInHz channelConfig complexity bitrate w
  = (p, mkWorld st' (arrays w) (leases w)
          (trace w ++
           [EvEncoderCreate sampleRateInHz channelConfig
              OPUS_APPLICATION_VOIP p err;
            LogE "❌ Opus编码器创建失败: error=%d" [err]])).
Proof.
  intros Hc Hfail. unfold OpusJni.createEncoder, created in *. run_bridge.
  rewrite Hc. simpl. rewrite Hfail. simpl. tidy_trace. reflexivity.
Qed.

Lemma createDecoder_failure_run (sampleRateInHz channelConfig : Z)
    (w : World S) (p err : Z) (st' : S) :
  opus_decoder_create sampleRateInHz channelConfig (lib w)
  = ((p, err), st') →
  created (p, err) = false →
  OpusJni.createDecoder sampleRateInHz channelConfig w
  = (p, mkWorld st' (arrays w) (leases w)
          (trace w ++
           [EvDecoderCreate sampleRateInHz channelConfig p err;
            LogE "❌ Opus解码器创建失败: error=%d" [err]])).
Proof.
  intros Hc Hfail. unfold OpusJni.createDecoder, created in *. run_bridge.
  rewrite Hc. simpl. rewrite Hfail. simpl. tidy_trace. reflexivity.
Qed.

End Lifecycle.

(** ** X8: what creation calls *)

(** X8.  [createEncoder] enters the codec once when the codec does not
    create the encoder, so it never sends a configuration request to an
    encoder that does not exist, and ten times when it does (the
    creation and the nine requests); [createDecoder] enters it exactly
    once and never configures.  Neither touches an array or a lease. *)
Theorem creation_calls_and_heap {S : Type} {L : OpusLib S} :
  (∀ (sampleRateInHz channelConfig complexity bitrate : Z) (w : World S),
     heap_untouched w
       (OpusJni.createEncoder sampleRateInHz channelConfig complexity bitrate
          w)
     ∧ ∃ evs,
         appended w
           (OpusJni.createEncoder sampleRateInHz channelConfig complexity
              bitrate w) evs
         ∧ codec_calls evs
           = if created (opus_encoder_create sampleRateInHz channelConfig
                           OPUS_APPLICATION_VOIP (lib w)).1
             then 10%nat else 1%nat)
  ∧ (∀ (sampleRateInHz channelConfig : Z) (w : World S),
       heap_untouched w (OpusJni.createDecoder sampleRateInHz channelConfig w)
       ∧ ∃ evs,
           appended w (OpusJni.createDecoder sampleRateInHz channelConfig w)
             evs
           ∧ codec_calls evs = 1%nat).
Proof.
  split.
  - intros sr ch cx br w.
    destruct (createEncoder_run sr ch cx br w) as (evs & Hrun & Hcalls & _).
    rewrite Hrun. split; [done|]. by exists evs.
  - intros sr ch w.
    destruct (createDecoder_run sr ch w) as (evs & -> & Hcalls).
    split; [done|]. by exists evs.
Qed.

(** ** X9: what destruction calls *)

(** X9.  Whatever the handle, [destroyEncoder] and [destroyDecoder] touch
    no array and no lease.  On a non-zero handle [destroyEncoder] hands
    exactly that address to [opus_encoder_destroy], and [destroyDecoder]
    to [opus_decoder_destroy], once; the codec library is left in the
    state that call produced. *)
Theorem destruction_calls_and_heap {S : Type} {L : OpusLib S} :
  (∀ (pOpusEnc : Z) (w : World S),
     heap_untouched w (OpusJni.destroyEncoder pOpusEnc w)
     ∧ lib (OpusJni.destroyEncoder pOpusEnc w).2
       = (if pOpusEnc =? 0 then lib w
          else opus_encoder_destroy pOpusEnc (lib w))
     ∧ ∃ evs,
         appended w (OpusJni.destroyEncoder pOpusEnc w) evs
         ∧ List.filter codec_invocation evs
           = if pOpusEnc =? 0 then [] else [EvEncoderDestroy pOpusEnc])
  ∧ (∀ (pOpusDec : Z) (w : World S),
       heap_untouched w (OpusJni.destroyDecoder pOpusDec w)
       ∧ lib (OpusJni.destroyDecoder pOpusDec w).2
         = (if pOpusDec =? 0 then lib w
            else opus_decoder_destroy pOpusDec (lib w))
       ∧ ∃ evs,
           appended w (OpusJni.destroyDecoder pOpusDec w) evs
           ∧ List.filter codec_invocation evs
             = if pOpusDec =? 0 then [] else [EvDecoderDestroy pOpusDec]).
Proof.
  split; intros h w; (destruct (decide (h = 0)) as [->|Hh]).
  - split; [done|]. split; [done|]. exists []. split; [|done].
    unfold appended. simpl. by rewrite app_nil_r.
  - rewrite destroyEncoder_run by done. apply Z.eqb_neq in Hh. rewrite Hh.
    split; [done|]. split; [done|]. by eexists.
  - split; [done|]. split; [done|]. exists []. split; [|done].
    unfold appended. simpl. by rewrite app_nil_r.
  - rewrite destroyDecoder_run by done. apply Z.eqb_neq in Hh. rewrite Hh.
    split; [done|]. split; [done|]. by eexists.
Qed.

(** ** X10: a destroyed handle is not remembered *)

(** X10.  The bridge keeps no record of destroyed handles.  Destroying
    the same non-zero handle twice hands it to the codec's destroy
    primitive twice; and [encode] (or [decode]) on a handle that was just
    destroyed still passes the null check and calls the codec with that
    handle, on the library state the destruction left. *)
Theorem destroyed_handle_is_not_tracked {S : Type} {L : OpusLib S} :
  (∀ (pOpusEnc : Z) (w : World S),
     pOpusEnc ≠ 0 →
     lib ((OpusJni.destroyEncoder pOpusEnc;;
           OpusJni.destroyEncoder pOpusEnc) w).2
     = opus_encoder_destroy pOpusEnc (opus_encoder_destroy pOpusEnc (lib w)))
  ∧ (∀ (pOpusDec : Z) (w : World S),
       pOpusDec ≠ 0 →
       lib ((OpusJni.destroyDecoder pOpusDec;;
             OpusJni.destroyDecoder pOpusDec) w).2
       = opus_decoder_destroy pOpusDec
           (opus_decoder_destroy pOpusDec (lib w)))
  ∧ (∀ (pOpusEnc : Z) (s b : ref) (frameSize : Z) (w : World S),
       pOpusEnc ≠ 0 →
       frameSize ≤ array_length w s →
       0 < array_length w b →
       ((OpusJni.destroyEncoder pOpusEnc;;
         OpusJni.encode pOpusEnc (Some s) frameSize (Some b)) w).1
       = (opus_encode pOpusEnc (elems w s) frameSize (elems w b)
            (array_length w b)
            (opus_encoder_destroy pOpusEnc (lib w))).1.1)
  ∧ (∀ (pOpusDec : Z) (b : ref) (bytesLength : Z) (s : ref) (frameSize : Z)
       (w : World S),
       pOpusDec ≠ 0 →
       0 < bytesLength →
       frameSize ≤ array_length w s →
       ((OpusJni.destroyDecoder pOpusDec;;
         OpusJni.decode pOpusDec (Some b) bytesLength (Some s) frameSize)
          w).1
       = (opus_decode pOpusDec (elems w b) bytesLength (elems w s) frameSize
            0 (opus_decoder_destroy pOpusDec (lib w))).1.1).
Proof.
  split; [|split; [|split]].
  - intros h w Hh. unfold mbind, M_bind, bind.
    rewrite destroyEncoder_run by done. by rewrite destroyEncoder_run by done.
  - intros h w Hh. unfold mbind, M_bind, bind.
    rewrite destroyDecoder_run by done. by rewrite destroyDecoder_run by done.
  - intros h s b fs w Hh Hs Hb. unfold mbind, M_bind, bind.
    rewrite destroyEncoder_run by done.
    destruct (opus_encode h (elems w s) fs (elems w b) (array_length w b)
                (opus_encoder_destroy h (lib w))) as [[n out] st'] eqn:Hc.
    by rewrite (encode_codec_run h s b fs _ n out st').
  - intros h b len s fs w Hh Hlen Hs. unfold mbind, M_bind, bind.
    rewrite destroyDecoder_run by done.
    destruct (opus_decode h (elems w b) len (elems w s) fs 0
                (opus_decoder_destroy h (lib w))) as [[n out] st'] eqn:Hc.
    by rewrite (decode_codec_run h b len s fs _ n out st').
Qed.

Lemma destroyed_handle_witness :
  lib ((OpusJni.destroyEncoder 4096;; OpusJni.destroyEncoder 4096)
         (RefLib.world 4 8)).2 = RefLib.init
  ∧ ((OpusJni.destroyEncoder 4096;;
      OpusJni.encode 4096 (Some 1%positive) 4 (Some 2%positive))
       (RefLib.world 4 8)).1 = 3.
Proof.
  destruct (@destroyed_handle_is_not_tracked RefLib.St RefLib.opus)
    as (Hee & _ & Hen & _).
  split.
  - apply Hee. discriminate.
  - apply Hen; vm_compute; (reflexivity || discriminate).
Defined.

(** ** X11: the sentinel of a failed creation is inert *)

(** X11.  When the codec yields no object, a whole session on the handle
    that creation returned does nothing further: the handle is 0,
    [encode] (or [decode]) answers [-1], the destroy call is skipped, the
    creation attempt is the only call into the codec, the codec library
    is in the state that attempt left, and no array or lease is
    touched. *)
Theorem failed_creation_session_is_inert {S : Type} {L : OpusLib S} :
  (∀ (sampleRateInHz channelConfig complexity bitrate : Z) (samples : jarray)
     (frameSize : Z) (bytes : jarray) (w : World S),
     (opus_encoder_create sampleRateInHz channelConfig OPUS_APPLICATION_VOIP
        (lib w)).1.1 = 0 →
     (encoder_session sampleRateInHz channelConfig complexity bitrate samples
        frameSize bytes w).1 = (0, -1)
     ∧ heap_untouched w
         (encoder_session sampleRateInHz channelConfig complexity bitrate
            samples frameSize bytes w)
     ∧ lib (encoder_session sampleRateInHz channelConfig complexity bitrate
              samples frameSize bytes w).2
       = (opus_encoder_create sampleRateInHz channelConfig
            OPUS_APPLICATION_VOIP (lib w)).2
     ∧ ∃ evs,
         appended w
           (encoder_session sampleRateInHz channelConfig complexity bitrate
              samples frameSize bytes w) evs
         ∧ codec_calls evs = 1%nat)
  ∧ (∀ (sampleRateInHz channelConfig : Z) (bytes : jarray) (bytesLength : Z)
       (samples : jarray) (frameSize : Z) (w : World S),
       (opus_decoder_create sampleRateInHz channelConfig (lib w)).1.1 = 0 →
       (decoder_session sampleRateInHz channelConfig bytes bytesLength
          samples frameSize w).1 = (0, -1)
       ∧ heap_untouched w
           (decoder_session sampleRateInHz channelConfig bytes bytesLength
              samples frameSize w)
       ∧ lib (decoder_session sampleRateInHz channelConfig bytes bytesLength
                samples frameSize w).2
         = (opus_decoder_create sampleRateInHz channelConfig (lib w)).2
       ∧ ∃ evs,
           appended w
             (decoder_session sampleRateInHz channelConfig bytes bytesLength
                samples frameSize w) evs
           ∧ codec_calls evs = 1%nat).
Proof.
  split.
  - intros sr ch cx br samples fs bytes w Hnull.
    destruct (opus_encoder_create sr ch OPUS_APPLICATION_VOIP (lib w))
      as [[p err] st'] eqn:Hc. simpl in Hnull. subst p.
    unfold encoder_session, mbind, M_bind, bind.
    rewrite (createEncoder_failure_run sr ch cx br w 0 err st') by done.
    rewrite encode_null_run by auto. simpl.
    repeat split. unfold appended. simpl. eexists.
    split; [tidy_trace; reflexivity|done].
  - intros sr ch bytes len samples fs w Hnull.
    destruct (opus_decoder_create sr ch (lib w)) as [[p err] st'] eqn:Hc.
    simpl in Hnull. subst p.
    unfold decoder_session, mbind, M_bind, bind.
    rewrite (createDecoder_failure_run sr ch w 0 err st') by done.
    rewrite decode_null_run by auto. simpl.
    repeat split. unfold appended. simpl. eexists.
    split; [tidy_trace; reflexivity|done].
Qed.

Lemma failed_creation_witness :
  (encoder_session 16000 3 5 16000 (Some 1%positive) 4 (Some 2%positive)
     (RefLib.world 4 8)).1 = (0, -1)
  ∧ heap_untouched (RefLib.world 4 8)
      (encoder_session 16000 3 5 16000 (Some 1%positive) 4 (Some 2%positive)
         (RefLib.world 4 8))
  ∧ lib (encoder_session 16000 3 5 16000 (Some 1%positive) 4
           (Some 2%positive) (RefLib.world 4 8)).2 = RefLib.init
  ∧ ∃ evs,
      appended (RefLib.world 4 8)
        (encoder_session 16000 3 5 16000 (Some 1%positive) 4
           (Some 2%positive) (RefLib.world 4 8)) evs
      ∧ codec_calls evs = 1%nat.
Proof.
  destruct (@failed_creation_session_is_inert RefLib.St RefLib.opus)
    as [Henc _].
  apply (Henc 16000 3 5 16000 (Some 1%positive) 4 (Some 2%positive)
           (RefLib.world 4 8)).
  vm_compute. reflexivity.
Defined.

(** ** X12: the two variants on refused calls *)

(** X12.  On every call that the working variant refuses at the bridge
    (null handle or array, or a violated size precondition) the two
    variants return the same value; and whenever the codec yields no
    object the working variant's create calls return what the
    interface-shape variant always returns. *)
Theorem variants_agree_on_refused_calls {S : Type} {L : OpusLib S} :
  (∀ (pOpusEnc : Z) (samples : jarray) (frameSize : Z) (bytes : jarray)
     (w : World S),
     encode_precondition_violated w pOpusEnc samples frameSize bytes →
     (OpusJni.encode pOpusEnc samples frameSize bytes w).1
     = (OpusJniStub.encode pOpusEnc samples frameSize bytes w).1)
  ∧ (∀ (pOpusDec : Z) (bytes : jarray) (bytesLength : Z) (samples : jarray)
       (frameSize : Z) (w : World S),
       decode_precondition_violated w pOpusDec bytes bytesLength samples
         frameSize →
       (OpusJni.decode pOpusDec bytes bytesLength samples frameSize w).1
       = (OpusJniStub.decode pOpusDec bytes bytesLength samples frameSize
            w).1)
  ∧ (∀ (sampleRateInHz channelConfig complexity bitrate : Z) (w : World S),
       (opus_encoder_create sampleRateInHz channelConfig
          OPUS_APPLICATION_VOIP (lib w)).1.1 = 0 →
       (OpusJni.createEncoder sampleRateInHz channelConfig complexity bitrate
          w).1
       = (OpusJniStub.createEncoder sampleRateInHz channelConfig complexity
            bitrate w).1)
  ∧ (∀ (sampleRateInHz channelConfig : Z) (w : World S),
       (opus_decoder_create sampleRateInHz channelConfig (lib w)).1.1 = 0 →
       (OpusJni.createDecoder sampleRateInHz channelConfig w).1
       = (OpusJniStub.createDecoder sampleRateInHz channelConfig w).1).
Proof.
  split; [|split; [|split]].
  - intros h samples fs bytes w Hv.
    destruct (encode_run_cases h samples fs bytes w)
      as [[_ ->]|(s & b & -> & -> & Hh & [[_ ->]|(n & out & st' & Hs & Hb & _ & _)])];
      [done | done |].
    destruct Hv as [?|[?|[?|(s' & b' & ? & ? & Hsz)]]]; try done.
    simplify_eq. lia.
  - intros h bytes len samples fs w Hv.
    destruct (decode_run_cases h bytes len samples fs w)
      as [[_ ->]|(s & b & -> & -> & Hh & [[_ ->]|(n & out & st' & Hlen & Hs & _ & _)])];
      [done | done |].
    destruct Hv as [?|[?|[?|(s' & ? & Hsz)]]]; try done.
    simplify_eq. lia.
  - intros sr ch cx br w Hnull.
    destruct (createEncoder_run sr ch cx br w) as (evs & -> & _).
    by rewrite Hnull.
  - intros sr ch w Hnull.
    destruct (createDecoder_run sr ch w) as (evs & -> & _).
    by rewrite Hnull.
Qed.

Lemma variants_agree_witness :
  (OpusJni.encode 4096 (Some 1%positive) 320 (Some 2%positive)
     (RefLib.world 100 256)).1
  = (OpusJniStub.encode 4096 (Some 1%positive) 320 (Some 2%positive)
       (RefLib.world 100 256)).1
  ∧ (OpusJni.createEncoder 44100 1 5 16000 (RefLib.world 0 0)).1
    = (OpusJniStub.createEncoder 44100 1 5 16000 (RefLib.world 0 0)).1.
Proof.
  destruct (@variants_agree_on_refused_calls RefLib.St RefLib.opus)
    as (Henc & _ & Hcre & _).
  split.
  - apply Henc. right; right; right. exists 1%positive, 2%positive.
    split; [reflexivity|]. split; [reflexivity|]. left. vm_compute.
    reflexivity.
  - apply Hcre. vm_compute. reflexivity.
Defined.
